(** * TeraWeB: the range streaming responder and the retention scheduler

    A shallow embedding of [index.js]: the [/watch/:filename] route
    (lines 120-156), the one-shot deletion scheduled after a download
    (lines 94-101) and the hourly cleanup job (lines 161-189), together
    with the parts of the JavaScript and Node.js libraries they call
    ([parseInt], [String.prototype.replace] and [split], template
    literals, [path.join], [path.basename], the [fs] calls,
    node-schedule and the way an Express router treats a handler that
    throws).

    Strings are sequences of 8-bit characters: a header value is held
    as Node decodes it (Latin-1), a file name or path by its bytes; the
    code only ever looks for ASCII characters in them.  Times are whole
    milliseconds since the epoch.  A callback is run as the continuation
    of the call that was given it: the calls of one job run one after
    the other, at the time the job fires. *)

From Stdlib Require Import ZArith Ascii String Strings.Byte.
From stdpp Require Import base tactics option list gmap strings sorting.

Local Open Scope Z_scope.

(** ** JavaScript values used by the routes *)

Module JS.

(** A JavaScript number, as far as the routes can hold one: [NaN], the
    infinities and integers.  An integer is exact as long as its
    magnitude is at most [2^53]; the numbers that reach a header or a
    file position are file sizes or have passed [validateInteger] and
    are in that range.  [-0] is identified with [0]: the code only
    subtracts, compares and prints it, and [-0] prints as [0]. *)
Inductive number : Type :=
  | NaN
  | Int (z : Z)
  | Infinity
  | NegInfinity.

#[global] Instance number_eq_dec : EqDecision number.
Proof. solve_decision. Defined.

Definition MAX_SAFE_INTEGER : Z := 2 ^ 53 - 1.

(** The integers from [OVERFLOW] on are beyond the largest double and
    read as [Infinity]. *)
Definition OVERFLOW : Z := 2 ^ 1024 - 2 ^ 970.

Definition of_integer (z : Z) : number :=
  if OVERFLOW <=? z then Infinity
  else if z <=? - OVERFLOW then NegInfinity
  else Int z.

(** [- a] *)
Definition neg (a : number) : number :=
  match a with
  | NaN => NaN
  | Int x => Int (- x)
  | Infinity => NegInfinity
  | NegInfinity => Infinity
  end.

(** [a + b] on numbers *)
Definition add (a b : number) : number :=
  match a, b with
  | NaN, _ | _, NaN => NaN
  | Int x, Int y => Int (x + y)
  | Infinity, NegInfinity | NegInfinity, Infinity => NaN
  | Infinity, _ | _, Infinity => Infinity
  | NegInfinity, _ | _, NegInfinity => NegInfinity
  end.

(** [a - b] *)
Definition sub (a b : number) : number := add a (neg b).

(** [a > b]: false as soon as one side is [NaN]. *)
Definition gt (a b : number) : bool :=
  match a, b with
  | NaN, _ | _, NaN => false
  | Int x, Int y => y <? x
  | Infinity, Infinity => false
  | Infinity, _ => true
  | NegInfinity, _ => false
  | Int _, Infinity => false
  | Int _, NegInfinity => true
  end.

(** *** Strings: [replace], [split], truthiness *)

(** [strip_prefix pat s] is the rest of [s] after a leading [pat]. *)
Fixpoint strip_prefix (pat s : string) : option string :=
  match pat, s with
  | EmptyString, _ => Some s
  | String a pat', String b s' =>
      if Ascii.eqb a b then strip_prefix pat' s' else None
  | String _ _, EmptyString => None
  end.

(** [s.replace(/pat/, '')] for a pattern without metacharacters: the
    first occurrence of [pat], wherever it is, is removed. *)
Fixpoint replace_first (pat s : string) : string :=
  match strip_prefix pat s with
  | Some rest => rest
  | None =>
      match s with
      | EmptyString => EmptyString
      | String c s' => String c (replace_first pat s')
      end
  end.

(** [s.split(sep)] for a one-character separator; the result is never
    empty ([''.split('-')] is [['']]). *)
Fixpoint split (sep : ascii) (s : string) : list string :=
  match s with
  | EmptyString => [EmptyString]
  | String c s' =>
      if Ascii.eqb c sep then EmptyString :: split sep s'
      else match split sep s' with
           | [] => [String c EmptyString]
           | part :: parts => String c part :: parts
           end
  end.

(** Truthiness of a string ([if (range)], [parts[1] ? .. : ..]). *)
Definition truthy (s : string) : bool :=
  match s with
  | EmptyString => false
  | String _ _ => true
  end.

(** *** [parseInt(s, 10)] *)

Definition code (c : ascii) : Z := Z.of_N (N_of_ascii c).

(** White space and line terminators that fit in one Latin-1 code unit
    (header values are decoded as Latin-1): TAB, LF, VT, FF, CR, SP and
    NBSP. *)
Definition is_white_space (c : ascii) : bool :=
  let n := code c in
  ((9 <=? n) && (n <=? 13)) || (n =? 32) || (n =? 160).

Definition is_digit (c : ascii) : bool :=
  let n := code c in (48 <=? n) && (n <=? 57).

Definition digit_value (c : ascii) : Z := code c - 48.

Fixpoint skip_white_space (s : string) : string :=
  match s with
  | String c s' => if is_white_space c then skip_white_space s' else s
  | EmptyString => s
  end.

(** Value of the longest prefix of decimal digits of [s], on top of
    the digits [acc] read so far. *)
Fixpoint read_digits (acc : Z) (s : string) : Z :=
  match s with
  | String c s' =>
      if is_digit c then read_digits (10 * acc + digit_value c) s' else acc
  | EmptyString => acc
  end.

Definition starts_with_digit (s : string) : bool :=
  match s with
  | String c _ => is_digit c
  | EmptyString => false
  end.

(** [parseInt(s, 10)]: leading white space is skipped, one sign is
    accepted, the digits that follow are read and anything after them
    is ignored; without a digit the result is [NaN], and an integer too
    large for a double is an infinity. *)
Definition parseInt (s : string) : number :=
  let s1 := skip_white_space s in
  let '(sign, s2) :=
    match s1 with
    | String "-" s' => (-1, s')
    | String "+" s' => (1, s')
    | _ => (1, s1)
    end in
  if starts_with_digit s2 then of_integer (sign * read_digits 0 s2) else NaN.

(** *** Numbers in template literals *)

Definition digit_char (d : Z) : ascii := ascii_of_N (Z.to_N (48 + d)).

Fixpoint decimal_go (fuel : nat) (n : Z) (acc : string) : string :=
  match fuel with
  | O => acc
  | S fuel' =>
      let acc' := String (digit_char (n mod 10)) acc in
      if n <? 10 then acc' else decimal_go fuel' (n / 10) acc'
  end.

(** Decimal digits of a non-negative integer. *)
Definition decimal (n : Z) : string :=
  decimal_go (S (Z.to_nat (Z.log2 n))) n "".

(** [`${x}`] for the numbers of this development. *)
Definition to_string (x : number) : string :=
  match x with
  | NaN => "NaN"
  | Int z => if z <? 0 then "-" +:+ decimal (- z) else decimal z
  | Infinity => "Infinity"
  | NegInfinity => "-Infinity"
  end.

(** *** Predicates used to describe well-formed headers and names *)

(** [s] consists of decimal digits only. *)
Fixpoint all_digits (s : string) : bool :=
  match s with
  | EmptyString => true
  | String c s' => is_digit c && all_digits s'
  end.

(** The character [c] occurs in [s]. *)
Fixpoint occurs (c : ascii) (s : string) : bool :=
  match s with
  | EmptyString => false
  | String c' s' => Ascii.eqb c' c || occurs c s'
  end.

End JS.

(** ** The [path] module (POSIX flavour) *)

Module Path.

Fixpoint join_with_slash (segments : list string) : string :=
  match segments with
  | [] => ""
  | [seg] => seg
  | seg :: rest => seg +:+ "/" +:+ join_with_slash rest
  end.

(** [normalizeString]: the segments between slashes are read left to
    right; empty segments and ["."] are dropped, [".."] removes the
    segment before it, and where there is none it is kept only if the
    path is relative ([allowAboveRoot]).  [res] holds the result so far,
    last segment first. *)
Fixpoint normalize_segments (allowAboveRoot : bool) (res segments : list string)
    : list string :=
  match segments with
  | [] => rev res
  | seg :: rest =>
      if String.eqb seg "" || String.eqb seg "." then
        normalize_segments allowAboveRoot res rest
      else if String.eqb seg ".." then
        match res with
        | last :: res' =>
            if String.eqb last ".." then
              normalize_segments allowAboveRoot
                (if allowAboveRoot then ".." :: res else res) rest
            else normalize_segments allowAboveRoot res' rest
        | [] =>
            normalize_segments allowAboveRoot
              (if allowAboveRoot then [".."] else []) rest
        end
      else normalize_segments allowAboveRoot (seg :: res) rest
  end.

Definition starts_with_slash (path : string) : bool :=
  match path with
  | String c _ => Ascii.eqb c "/"
  | EmptyString => false
  end.

Fixpoint ends_with_slash (path : string) : bool :=
  match path with
  | EmptyString => false
  | String c EmptyString => Ascii.eqb c "/"
  | String _ path' => ends_with_slash path'
  end.

(** [path.normalize] *)
Definition normalize (path : string) : string :=
  if String.eqb path "" then "."
  else
    let isAbsolute := starts_with_slash path in
    let trailingSeparator := ends_with_slash path in
    let path' :=
      join_with_slash
        (normalize_segments (negb isAbsolute) [] (JS.split "/" path)) in
    if String.eqb path' "" then
      if isAbsolute then "/" else if trailingSeparator then "./" else "."
    else
      let path'' := if trailingSeparator then path' +:+ "/" else path' in
      if isAbsolute then "/" +:+ path'' else path''.

(** [path.join(...args)]: the non-empty arguments are glued with a
    slash and the result is normalized. *)
Definition join (args : list string) : string :=
  match filter (λ arg, JS.truthy arg = true) args with
  | [] => "."
  | parts => normalize (join_with_slash parts)
  end.

(** [path.basename(path)]: the last non-empty segment, trailing slashes
    being ignored. *)
Definition basename (path : string) : string :=
  List.last (filter (λ seg, JS.truthy seg = true) (JS.split "/" path)) "".

(** The segments of a path: what lies between its slashes. *)
Definition segments (path : string) : list string :=
  filter (λ seg, JS.truthy seg = true) (JS.split "/" path).

(** [inside root path]: the location [path] lies strictly below the
    directory [root]. *)
Definition inside (root path : string) : bool :=
  let r := segments root in
  let p := segments path in
  bool_decide (r `prefix_of` p) && bool_decide (length r < length p)%nat.

(** A name as a directory holds it: not empty, without a slash, and
    neither ["."] nor [".."]. *)
Definition plain (name : string) : bool :=
  JS.truthy name && negb (JS.occurs "/" name)
  && negb (String.eqb name ".") && negb (String.eqb name "..").

(** The absolute path with the given segments. *)
Definition absolute (segments : list string) : string :=
  "/" +:+ join_with_slash segments.

End Path.

(** ** The process: file system, console, clock and pending jobs *)

(** Error codes of the file system calls that the model can produce. *)
Inductive errno : Type := ENOENT | EISDIR | ENOTDIR.

#[global] Instance errno_eq_dec : EqDecision errno.
Proof. solve_decision. Defined.

(** What a path names: a regular file with its bytes, or a directory
    (with the size that [stat] reports for it).  The process may read
    and remove every regular file: permissions are not modelled. *)
Inductive kind : Type :=
  | Regular (content : list byte)
  | Directory (dsize : Z).

Record node : Type := Node { nkind : kind; mtimeMs : Z }.

(** The result of [fs.stat] / [fs.statSync]; only the two fields the
    program reads. *)
Record Stats : Type := { st_size : Z; st_mtimeMs : Z }.

Definition stats_of (n : node) : Stats :=
  {| st_size := match nkind n with
                | Regular content => Z.of_nat (length content)
                | Directory dsize => dsize
                end;
     st_mtimeMs := mtimeMs n |}.

(** A line written to the console: [console.log(text)] or
    [console.error(text, err)]. *)
Inductive entry : Type :=
  | LogLine (text : string)
  | ErrorLine (text : string) (err : errno).

(** A job held by node-schedule: the closure of the one-shot deletion,
    with the [videoFilePath] it captured, or the cleanup job. *)
Inductive task : Type :=
  | DeleteFile (videoFilePath : string)
  | Cleanup.

(** The state of the process.  [files] maps absolute paths to what they
    name; times are in milliseconds since the epoch; [jobs] are the
    one-shot invocations node-schedule still holds, with their dates. *)
Record world : Type := World {
  files : gmap string node;
  console : list entry;
  clock : Z;
  jobs : list (Z * string)
}.

Definition set_files (f : gmap string node → gmap string node) (w : world) : world :=
  {| files := f (files w); console := console w; clock := clock w; jobs := jobs w |}.

Definition write_console (e : entry) (w : world) : world :=
  {| files := files w; console := (console w ++ [e])%list; clock := clock w; jobs := jobs w |}.

Definition set_clock (t : Z) (w : world) : world :=
  {| files := files w; console := console w; clock := t; jobs := jobs w |}.

Definition set_jobs (f : list (Z * string) → list (Z * string)) (w : world) : world :=
  {| files := files w; console := console w; clock := clock w; jobs := f (jobs w) |}.

(** *** Computations that may throw *)

(** What JavaScript can throw here: the range error of Node's argument
    validation, and the error of a synchronous [fs] call. *)

Inductive exn : Type :=
  | ERR_OUT_OF_RANGE (name : string) (received : JS.number)
  | SystemError (code : errno) (syscall : string).

Inductive outcome (A : Type) : Type :=
  | Returned (a : A)
  | Threw (e : exn).
Arguments Returned {A} a.
Arguments Threw {A} e.

(** A computation runs in a state of the process and returns a value or
    throws, leaving a new state. *)
Definition M (A : Type) : Type := world → outcome A * world.

#[global] Instance M_ret : MRet M := λ A a w, (Returned a, w).

#[global] Instance M_bind : MBind M := λ A B f c w,
  match c w with
  | (Returned a, w') => f a w'
  | (Threw e, w') => (Threw e, w')
  end.

Definition throw {A : Type} (e : exn) : M A := λ w, (Threw e, w).

Definition lift_outcome {A : Type} (o : outcome A) : M A := λ w, (o, w).

Definition get_world : M world := λ w, (Returned w, w).

Definition modify (f : world → world) : M unit := λ w, (Returned tt, f w).

(** [list.forEach(f)] *)
Fixpoint forEach {A : Type} (l : list A) (f : A → M unit) : M unit :=
  match l with
  | [] => mret tt
  | x :: l' => f x ;; forEach l' f
  end.

(** *** The [fs] module *)

Definition existsSync (path : string) : M bool :=
  λ w, (Returned (bool_decide (is_Some (files w !! path))), w).

Definition statSync (path : string) : M Stats :=
  λ w, match files w !! path with
       | Some n => (Returned (stats_of n), w)
       | None => (Threw (SystemError ENOENT "stat"), w)
       end.

(** [fs.stat(path, callback)]: the callback receives an error or the
    stats. *)
Definition fs_stat (path : string) : M (errno + Stats) :=
  λ w, match files w !! path with
       | Some n => (Returned (inr (stats_of n)), w)
       | None => (Returned (inl ENOENT), w)
       end.

(** [fs.unlink(path, callback)]: a regular file is removed; a missing
    path or a directory is reported to the callback. *)
Definition fs_unlink (path : string) : M (option errno) :=
  λ w, match files w !! path with
       | Some n =>
           match nkind n with
           | Regular _ => (Returned None, set_files (delete path) w)
           | Directory _ => (Returned (Some EISDIR), w)
           end
       | None => (Returned (Some ENOENT), w)
       end.

(** The name under which [path] is an entry of the directory [dir]. *)
Definition entry_name (dir path : string) : option string :=
  match JS.strip_prefix (dir +:+ "/") path with
  | Some name =>
      if JS.truthy name && negb (JS.occurs "/" name) then Some name else None
  | None => None
  end.

(** [fs.readdir(path, callback)]: the names of the entries of a
    directory. *)
Definition fs_readdir (path : string) : M (errno + list string) :=
  λ w, match files w !! path with
       | Some n =>
           match nkind n with
           | Directory _ =>
               (Returned (inr (omap (entry_name path) (map fst (map_to_list (files w))))), w)
           | Regular _ => (Returned (inl ENOTDIR), w)
           end
       | None => (Returned (inl ENOENT), w)
       end.

(** A read stream as [fs.createReadStream] returns it; nothing is read
    before it is piped.  [rs_end = None] reads to the end of the file. *)
Record ReadStream : Type := {
  rs_path : string;
  rs_start : Z;
  rs_end : option Z
}.

(** [validateInteger(value, name, min, max)] of Node's validators. *)
Definition validateInteger (value : JS.number) (name : string) (min max : Z)
    : outcome Z :=
  match value with
  | JS.Int z =>
      if (z <? min) || (max <? z) then Threw (ERR_OUT_OF_RANGE name value)
      else Returned z
  | _ => Threw (ERR_OUT_OF_RANGE name value)
  end.

(** [fs.createReadStream(path, { start, end })] and
    [fs.createReadStream(path)]: [start] must be an integer between 0
    and [Number.MAX_SAFE_INTEGER]; so must [end], with [start <= end],
    unless it is [Infinity]; otherwise the call throws. *)
Definition createReadStream (path : string) (options : option (JS.number * JS.number))
    : M ReadStream :=
  match options with
  | Some (start, end_) =>
      s ← lift_outcome (validateInteger start "start" 0 JS.MAX_SAFE_INTEGER);
      match end_ with
      | JS.Infinity => mret {| rs_path := path; rs_start := s; rs_end := None |}
      | _ =>
          e ← lift_outcome (validateInteger end_ "end" 0 JS.MAX_SAFE_INTEGER);
          if JS.gt start end_ then throw (ERR_OUT_OF_RANGE "start" start)
          else mret {| rs_path := path; rs_start := s; rs_end := Some e |}
      end
  | None => mret {| rs_path := path; rs_start := 0; rs_end := None |}
  end.

(** What is sent as the body of a response: a text, the bytes read from
    a stream, nothing because the stream failed with an error (which
    no listener of the program handles), or the error page of the
    framework. *)
Inductive payload : Type :=
  | Text (s : string)
  | Bytes (bs : list byte)
  | ReadError (code : errno)
  | ErrorPage (e : exn).

(** The bytes a read stream delivers from a file: those at positions
    [rs_start] to [rs_end], both included, as far as the file goes. *)
Definition stream_bytes (rs : ReadStream) (content : list byte) : list byte :=
  let size := Z.of_nat (length content) in
  let first := Z.min (rs_start rs) size in
  let stop :=
    match rs_end rs with
    | Some e => Z.min (e + 1) size
    | None => size
    end in
  take (Z.to_nat (stop - first)) (drop (Z.to_nat first) content).

(** [stream.pipe(res)]: the stream is read to its end into the body of
    the response; a path that cannot be read gives an error on the
    stream. *)
Definition pipe (rs : ReadStream) : M payload :=
  λ w, match files w !! rs_path rs with
       | Some n =>
           match nkind n with
           | Regular content => (Returned (Bytes (stream_bytes rs content)), w)
           | Directory _ => (Returned (ReadError EISDIR), w)
           end
       | None => (Returned (ReadError ENOENT), w)
       end.

(** *** Console, clock and node-schedule *)

Definition console_error (text : string) (err : errno) : M unit :=
  λ w, (Returned tt, write_console (ErrorLine text err) w).

Definition console_log (text : string) : M unit :=
  λ w, (Returned tt, write_console (LogLine text) w).

Definition Date_now : M Z := λ w, (Returned (clock w), w).

(** [schedule.scheduleJob(date, callback)] for a numeric date: the
    invocation is kept if the date is not in the past. *)
Definition scheduleJob (date : Z) (videoFilePath : string) : M unit :=
  λ w, if clock w <=? date
       then (Returned tt, set_jobs (λ js, (js ++ [(date, videoFilePath)])%list) w)
       else (Returned tt, w).

(** ** HTTP responses *)

Inductive header_value : Type :=
  | HString (s : string)
  | HNumber (n : JS.number).

Record response : Type := {
  status : Z;
  headers : list (string * header_value);
  body : payload
}.

(** [res.status(code).send(text)] *)
Definition send (code : Z) (text : string) : response :=
  {| status := code; headers := []; body := Text text |}.

(** What Express does with a route handler: a handler that returns has
    written the response; an exception thrown by the handler is caught
    by the router and answered by the default error handler with status
    500. *)
Definition express_handle (handler : M response) : M response :=
  λ w, match handler w with
       | (Returned r, w') => (Returned r, w')
       | (Threw e, w') =>
           (Returned {| status := 500; headers := []; body := ErrorPage e |}, w')
       end.

(** ** The application *)

Section App.

(** The directory of [index.js]. *)
Variable __dirname : string.

(** Milliseconds by which local time is ahead of UTC; the cron rule of
    the cleanup job is read in local time. *)
Variable utcOffset : Z.

Definition downloadsDir : string := Path.join [__dirname; "downloads"].

(** *** [app.get('/watch/:filename')] *)

Definition watch (filename : string) (range : option string) : M response :=
  let filePath := Path.join [downloadsDir; filename] in
  found ← existsSync filePath;
  if negb found then mret (send 404 "Video not found")
  else
    stat ← statSync filePath;
    let fileSize := JS.Int (st_size stat) in
    match range with
    | Some range' =>
        if JS.truthy range' then
          let parts := JS.split "-" (JS.replace_first "bytes=" range') in
          let start := JS.parseInt (default "" (parts !! 0%nat)) in
          let end_ :=
            match parts !! 1%nat with
            | Some part => if JS.truthy part then JS.parseInt part
                           else JS.sub fileSize (JS.Int 1)
            | None => JS.sub fileSize (JS.Int 1)
            end in
          let chunksize := JS.add (JS.sub end_ start) (JS.Int 1) in
          file ← createReadStream filePath (Some (start, end_));
          let head :=
            [ ("Content-Range",
               HString ("bytes " +:+ JS.to_string start +:+ "-" +:+ JS.to_string end_
                        +:+ "/" +:+ JS.to_string fileSize));
              ("Accept-Ranges", HString "bytes");
              ("Content-Length", HNumber chunksize);
              ("Content-Type", HString "video/mp4") ] in
          sent ← pipe file;
          mret {| status := 206; headers := head; body := sent |}
        else
          let head :=
            [ ("Content-Length", HNumber fileSize);
              ("Content-Type", HString "video/mp4") ] in
          file ← createReadStream filePath None;
          sent ← pipe file;
          mret {| status := 200; headers := head; body := sent |}
    | None =>
        let head :=
          [ ("Content-Length", HNumber fileSize);
            ("Content-Type", HString "video/mp4") ] in
        file ← createReadStream filePath None;
        sent ← pipe file;
        mret {| status := 200; headers := head; body := sent |}
    end.

(** *** The one-shot deletion of [app.post('/download')] *)

(** The callback given to [schedule.scheduleJob] at line 96. *)
Definition delete_video (videoFilePath : string) : M unit :=
  err ← fs_unlink videoFilePath;
  match err with
  | Some e =>
      console_error ("Error deleting file " +:+ Path.basename videoFilePath +:+ ":") e
  | None => console_log ("Deleted file " +:+ Path.basename videoFilePath)
  end.

(** Lines 94-101: what the route does with the path [downloadVideo]
    returned. *)
Definition schedule_deletion (videoFilePath : string) : M unit :=
  now ← Date_now;
  scheduleJob (now + 24 * 60 * 60 * 1000) videoFilePath.

(** *** The cleanup job *)

(** [fs.stat] on one entry and its callback, up to the decision to
    delete: the answer is whether [fs.unlink] is called. *)
Definition cleanup_check (file filePath : string) : M bool :=
  r ← fs_stat filePath;
  match r with
  | inl err =>
      console_error ("Error stating file " +:+ file +:+ ":") err ;; mret false
  | inr stats =>
      now ← Date_now;
      let fileAge := now - st_mtimeMs stats in
      mret (24 * 60 * 60 * 1000 <? fileAge)
  end.

(** [fs.unlink] of an old entry and its callback. *)
Definition cleanup_unlink (file filePath : string) : M unit :=
  err ← fs_unlink filePath;
  match err with
  | Some e => console_error ("Error deleting file " +:+ file +:+ ":") e
  | None => console_log ("Deleted old file " +:+ file)
  end.

(** The body of [files.forEach]. *)
Definition cleanup_file (file : string) : M unit :=
  let filePath := Path.join [downloadsDir; file] in
  old ← cleanup_check file filePath;
  if (old : bool) then cleanup_unlink file filePath else mret tt.

(** The job scheduled with ['0 * * * *']. *)
Definition cleanup : M unit :=
  r ← fs_readdir downloadsDir;
  match r with
  | inl err => console_error "Error reading downloads directory:" err
  | inr names => forEach names cleanup_file
  end.

(** What one pass of the cleanup job removes: regular files for which
    the test of line 178 holds at the time [now] of the pass. *)
Definition expired (now : Z) (n : node) : bool :=
  match nkind n with
  | Regular _ => 24 * 60 * 60 * 1000 <? now - mtimeMs n
  | Directory _ => false
  end.

(** *** node-schedule firing the jobs *)

Definition HOUR : Z := 60 * 60 * 1000.

(** The first top of a local hour after [t]. *)
Definition next_tick (t : Z) : Z := t + HOUR - ((t + utcOffset) mod HOUR).

(** The tops of the hour in [(from, to]]. *)
Definition ticks (from to : Z) : list Z :=
  let first := next_tick from in
  if to <? first then []
  else map (λ k : nat, first + HOUR * Z.of_nat k)
           (seq 0 (S (Z.to_nat ((to - first) / HOUR)))).

Definition earlier (a b : Z * task) : Prop := a.1 ≤ b.1.

#[global] Instance earlier_dec : RelDecision earlier :=
  λ a b, decide (a.1 ≤ b.1).

Definition due (t : Z) (job : Z * string) : bool := job.1 <=? t.

(** The invocations that fall due up to time [t], in the order of their
    dates: the pending one-shot deletions and the hourly cleanups. *)
Definition timeline (t : Z) (w : world) : list (Z * task) :=
  merge_sort earlier
    ((map (λ job : Z * string, (job.1, DeleteFile job.2))
          (List.filter (due t) (jobs w))
      ++ map (λ tick, (tick, Cleanup)) (ticks (clock w) t))%list).

Definition run_task (job : task) : M unit :=
  match job with
  | DeleteFile videoFilePath => delete_video videoFilePath
  | Cleanup => cleanup
  end.

(** Time moves on to [t], unless it is later already. *)
Definition advance_clock (t : Z) : M unit :=
  modify (λ w, set_clock (Z.max (clock w) t) w).

(** One invocation: time has reached its date (a late invocation runs
    at the time it is), and its callback runs. *)
Definition fire (invocation : Z * task) : M unit :=
  advance_clock invocation.1 ;; run_task invocation.2.

(** Let time pass until [t], firing what falls due on the way. *)
Definition run_until (t : Z) : M unit :=
  w ← get_world;
  let invocations := timeline t w in
  modify (set_jobs (List.filter (λ job, negb (due t job)))) ;;
  forEach invocations fire ;;
  advance_clock t.

End App.

Arguments JS.decimal : simpl never.
Arguments JS.OVERFLOW : simpl never.
Arguments JS.of_integer : simpl never.
Arguments JS.MAX_SAFE_INTEGER : simpl never.
Arguments JS.parseInt : simpl never.
Arguments JS.to_string : simpl never.
Arguments Path.join : simpl never.
Arguments Path.basename : simpl never.
Arguments existsSync : simpl never.
Arguments statSync : simpl never.
Arguments createReadStream : simpl never.
Arguments pipe : simpl never.
Arguments fs_unlink : simpl never.
Arguments fs_stat : simpl never.
Arguments fs_readdir : simpl never.

(** ** A small installation, used for the concrete runs below *)

Module Sample.

Definition dir : string := "/srv/app".

(** 1000 bytes: byte [k] holds [k mod 256]. *)
Definition clip : list byte :=
  map (λ k : nat, default x00 (Byte.of_N (N.of_nat (k mod 256)))) (seq 0 1000).

Definition clip_path : string := "/srv/app/downloads/clip.mp4".

(** A process started at the epoch, with [clip.mp4] (written at 1000 ms)
    and an older file in the downloads directory, and the source file
    next to it. *)
Definition world0 : world :=
  {| files :=
       <["/srv/app/downloads" := Node (Directory 4096) 0]>
         (<[clip_path := Node (Regular clip) 1000]>
            (<["/srv/app/downloads/old.mp4" := Node (Regular [x01; x02]) 5]>
               (<["/srv/app/index.js" := Node (Regular [x2f; x2f]) 0]> ∅)));
     console := [];
     clock := 2000;
     jobs := [] |}.

End Sample.

(** ** Downloading a video: [downloadVideo] and [app.post('/download')] *)

(** *** More of JavaScript's strings *)

Module Text.

(** [s.replace(/[...]/g, '')] for a class of characters: every
    character of the class is removed, wherever it occurs. *)
Fixpoint remove_chars (class s : string) : string :=
  match s with
  | EmptyString => EmptyString
  | String c s' =>
      if JS.occurs c class then remove_chars class s'
      else String c (remove_chars class s')
  end.

(** The string of the bytes with the given values. *)
Definition utf8 (bytes : list Z) : string :=
  fold_right (λ b s, String (ascii_of_N (Z.to_N b)) s) EmptyString bytes.

(** The white space and line terminators of ECMAScript, each by its
    UTF-8 bytes: U+0009 to U+000D, U+0020, U+00A0, U+1680, U+2000 to
    U+200A, U+2028, U+2029, U+202F, U+205F, U+3000 and U+FEFF. *)
Definition white_space : list string :=
  ([ utf8 [9]; utf8 [10]; utf8 [11]; utf8 [12]; utf8 [13]; utf8 [32];
     utf8 [194; 160]; utf8 [225; 154; 128] ]
   ++ map (λ k, utf8 [226; 128; 128 + Z.of_nat k]) (seq 0 11)
   ++ [ utf8 [226; 128; 168]; utf8 [226; 128; 169]; utf8 [226; 128; 175];
        utf8 [226; 129; 159]; utf8 [227; 128; 128]; utf8 [239; 187; 191] ])%list.

(** The rest of [s] after one of the given strings, if [s] starts with
    one. *)
Fixpoint strip_one (prefixes : list string) (s : string) : option string :=
  match prefixes with
  | [] => None
  | prefix :: prefixes' =>
      match JS.strip_prefix prefix s with
      | Some rest => Some rest
      | None => strip_one prefixes' s
      end
  end.

Fixpoint trimStart_go (fuel : nat) (s : string) : string :=
  match fuel with
  | O => s
  | S fuel' =>
      match strip_one white_space s with
      | Some rest => trimStart_go fuel' rest
      | None => s
      end
  end.

(** [s.trimStart()] *)
Definition trimStart (s : string) : string := trimStart_go (String.length s) s.

(** [s] is made of white space only. *)
Definition all_white (s : string) : bool := String.eqb (trimStart s) "".

(** [s.trimEnd()]: [s] up to its last character that is not white
    space. *)
Fixpoint trimEnd (s : string) : string :=
  match s with
  | EmptyString => EmptyString
  | String c s' => if all_white s then EmptyString else String c (trimEnd s')
  end.

(** [s.trim()] *)
Definition trim (s : string) : string := trimEnd (trimStart s).

(** *** [encodeURIComponent] *)

(** The characters that are not escaped: letters, digits and
    [- _ . ! ~ * ' ( )]. *)
Definition unreserved (c : ascii) : bool :=
  let n := JS.code c in
  ((65 <=? n) && (n <=? 90)) || ((97 <=? n) && (n <=? 122)) || JS.is_digit c
  || JS.occurs c "-_.!~*'()".

Definition hex_digit (d : Z) : ascii :=
  ascii_of_N (Z.to_N (if d <? 10 then 48 + d else 55 + d)).

(** [%XX], with the two upper-case hexadecimal digits of the byte. *)
Definition escape (c : ascii) : string :=
  String "%" (String (hex_digit (JS.code c / 16))
                (String (hex_digit (JS.code c mod 16)) EmptyString)).

(** [encodeURIComponent(s)], on the UTF-8 bytes of [s]: every byte
    that is not an unreserved character is escaped. *)
Fixpoint encodeURIComponent (s : string) : string :=
  match s with
  | EmptyString => EmptyString
  | String c s' =>
      (if unreserved c then String c EmptyString else escape c)
      +:+ encodeURIComponent s'
  end.

(** All the characters of [s] satisfy [test]. *)
Fixpoint all_chars (test : ascii → bool) (s : string) : bool :=
  match s with
  | EmptyString => true
  | String c s' => test c && all_chars test s'
  end.

End Text.

(** *** The services and the state of the site *)

Module Download.

(** What the route can catch: the error of a request to a service, by
    its message (an answer that cannot be read as the code reads it
    throws as well), or an error of the process's own calls. *)
Inductive failure : Type :=
  | Rejected (message : string)
  | Raised (e : exn).

(** The data of the resolver's answer that [downloadVideo] reads:
    [data.response[0].title] and the two entries of
    [data.response[0].resolutions]; an entry that is absent is [None]. *)
Record answer : Type := Answer {
  videoTitle : string;
  fastDownloadLink : option string;
  hdDownloadLink : option string
}.

(** The services, by what they answer.  [axios_get url] is the outcome
    of [await axios.get(url)] on the resolver; [axios_get_stream link]
    is the outcome of [await axios.get(link, { responseType: 'stream' })]
    followed to the end of the transfer, the bytes received;
    [sendVideo source caption] is the outcome of
    [await bot.telegram.sendVideo(...)], [None] when it resolves.  A
    transfer that stalls for ever is not among the outcomes. *)
Record services : Type := Services {
  axios_get : string → failure + answer;
  axios_get_stream : string → failure + list byte;
  sendVideo : string → string → option failure
}.

(** A line of [console.error] that shows a text and, where the code
    passes [error.message], the message of an error. *)
Inductive report : Type :=
  | Report (text : string) (cause : option failure).

(** A video in the Telegram channel. *)
Record post : Type := Post { video : list byte; caption : string }.

(** The site: the process of the routes and jobs, the error lines of
    the download route (kept apart from the lines of the jobs), and the
    channel. *)
Record site : Type := Site {
  process : world;
  reports : list report;
  channel : list post
}.

Definition set_process (f : world → world) (s : site) : site :=
  {| process := f (process s); reports := reports s; channel := channel s |}.

Inductive attempt (A : Type) : Type :=
  | Done (a : A)
  | Failed (error : failure).
Arguments Done {A} a.
Arguments Failed {A} error.

(** A computation of the download route: it ends with a value or with
    an error that a [catch] may handle. *)
Definition D (A : Type) : Type := site → attempt A * site.

#[global] Instance D_ret : MRet D := λ A a s, (Done a, s).

#[global] Instance D_bind : MBind D := λ A B f c s,
  match c s with
  | (Done a, s') => f a s'
  | (Failed error, s') => (Failed error, s')
  end.

(** [try { body } catch (error) { handler }] *)
Definition try_catch {A : Type} (body : D A) (handler : failure → D A) : D A :=
  λ s, match body s with
       | (Done a, s') => (Done a, s')
       | (Failed error, s') => handler error s'
       end.

(** [await] of a call whose outcome is given. *)
Definition await {A : Type} (outcome : failure + A) : D A :=
  λ s, match outcome with
       | inl error => (Failed error, s)
       | inr a => (Done a, s)
       end.

(** A call of the process, run in the site. *)
Definition in_process {A : Type} (call : M A) : D A :=
  λ s, match call (process s) with
       | (Returned a, w) => (Done a, set_process (λ _, w) s)
       | (Threw e, w) => (Failed (Raised e), set_process (λ _, w) s)
       end.

(** [console.error(text)] and [console.error(text, error.message)] *)
Definition console_error_message (text : string) (cause : option failure) : D unit :=
  λ s, (Done tt,
        {| process := process s;
           reports := (reports s ++ [Report text cause])%list;
           channel := channel s |}).

(** The directory that holds [path]: [path] up to its last slash. *)
Fixpoint parent_go (path : string) : option string :=
  match path with
  | EmptyString => None
  | String c path' =>
      match parent_go path' with
      | Some dir => Some (String c dir)
      | None => if Ascii.eqb c "/" then Some EmptyString else None
      end
  end.

Definition parent (path : string) : string :=
  match parent_go path with
  | Some EmptyString => "/"
  | Some dir => dir
  | None => "."
  end.

(** [fs.createWriteStream(path)], the response piped into it, and the
    wait for [finish] or [error]: the file is created or replaced and
    holds the bytes received, unless the path is a directory or the
    directory that should hold it is not there.  The sizes and times
    of directories are not kept up to date. *)
Definition write_stream (path : string) (received : list byte) : D unit :=
  λ s,
    let w := process s in
    let written :=
      (Done tt,
       set_process
         (set_files (<[path := Node (Regular received) (clock w)]>)) s) in
    match files w !! path with
    | Some (Node (Directory _) _) => (Failed (Raised (SystemError EISDIR "open")), s)
    | Some (Node (Regular _) _) => written
    | None =>
        match files w !! parent path with
        | Some (Node (Directory _) _) => written
        | Some (Node (Regular _) _) =>
            (Failed (Raised (SystemError ENOTDIR "open")), s)
        | None => (Failed (Raised (SystemError ENOENT "open")), s)
        end
    end.

(** What [res.render('index', { downloadUrl, watchUrl, error })] is
    given; [null] is [None]. *)
Record page : Type := Page {
  downloadUrl : option string;
  watchUrl : option string;
  error : option string
}.

Section Routes.

Variable __dirname : string.
Variable net : services.

(** Lines 56-57: the name of the file, from the title. *)
Definition sanitizedTitle (videoTitle : string) : string :=
  Text.trim (Text.remove_chars ("<>:" +:+ String "034" "/\|?*") videoTitle).

Definition videoFilename (videoTitle : string) : string :=
  sanitizedTitle videoTitle +:+ ".mp4".

(** [bot.telegram.sendVideo(TELEGRAM_CHANNEL_ID, { source }, { caption })]:
    the file is read and, if the service accepts it, it is in the
    channel. *)
Definition telegram_sendVideo (source caption : string) : D unit :=
  λ s,
    match files (process s) !! source with
    | Some (Node (Regular content) _) =>
        match sendVideo net source caption with
        | None =>
            (Done tt,
             {| process := process s; reports := reports s;
                channel := (channel s ++ [Post content caption])%list |})
        | Some error => (Failed error, s)
        end
    | Some (Node (Directory _) _) => (Failed (Raised (SystemError EISDIR "read")), s)
    | None => (Failed (Raised (SystemError ENOENT "open")), s)
    end.

(** [async function downloadVideo(url)], lines 39-81. *)
Definition downloadVideo (url : string) : D (option string) :=
  try_catch
    (data ← await
       (axios_get net
          ("https://teraboxvideodownloader.nepcoderdevs.workers.dev/?url="
           +:+ Text.encodeURIComponent url));
     let noLink : D (option string) :=
       console_error_message "No Fast Download link available." None ;;
       mret None in
     match hdDownloadLink data with
     | Some link =>
         if JS.truthy link then
           received ← await (axios_get_stream net link);
           let videoFilePath :=
             Path.join [downloadsDir __dirname; videoFilename (videoTitle data)] in
           write_stream videoFilePath received ;;
           in_process
             (console_log
                ("Video '" +:+ videoTitle data +:+ "' downloaded successfully as '"
                 +:+ videoFilename (videoTitle data) +:+ "'.")) ;;
           mret (Some videoFilePath)
         else noLink
     | None => noLink
     end)
    (λ error,
       console_error_message "Error downloading video:" (Some error) ;;
       mret None).

Definition render (downloadUrl watchUrl error : option string) : page :=
  {| downloadUrl := downloadUrl; watchUrl := watchUrl; error := error |}.

(** [app.post('/download')], lines 84-118.  [protocol] is
    [req.protocol], [host] is [req.get('host')] and [teraUrl] the field
    of the body, [None] when it is [undefined]. *)
Definition download (protocol : string) (host teraUrl : option string) : D page :=
  let required := render None None (Some "Terabox URL is required.") in
  match teraUrl with
  | None => mret required
  | Some url =>
      if negb (JS.truthy url) then mret required
      else
        try_catch
          (videoFilePath ← downloadVideo url;
           let failed : D page :=
             mret (render None None
                     (Some "Failed to download video. Please ensure the Terabox URL is correct.")) in
           match videoFilePath with
           | Some path =>
               if JS.truthy path then
                 in_process (schedule_deletion path) ;;
                 telegram_sendVideo path ("Video: " +:+ Path.basename path) ;;
                 let origin := protocol +:+ "://" +:+ default "undefined" host in
                 let name := Text.encodeURIComponent (Path.basename path) in
                 mret (render (Some (origin +:+ "/downloads/" +:+ name))
                              (Some (origin +:+ "/watch/" +:+ name))
                              None)
               else failed
           | None => failed
           end)
          (λ error,
             console_error_message "Error in download route:" (Some error) ;;
             mret (render None None
                     (Some "Failed to download video. Please try again later.")))
  end.

End Routes.

End Download.

(** A resolver that knows one video, a link that delivers three bytes,
    and a channel that accepts every video. *)
Module SampleNet.

Definition link : string := "https://cdn.example/v/1".

Definition net : Download.services :=
  {| Download.axios_get := λ _,
       inr {| Download.videoTitle := " Holiday: day 1/2 ";
              Download.fastDownloadLink := None;
              Download.hdDownloadLink := Some link |};
     Download.axios_get_stream := λ _, inr [x0a; x0b; x0c];
     Download.sendVideo := λ _ _, None |}.

(** The same, with a channel that refuses. *)
Definition offline : Download.services :=
  {| Download.axios_get := Download.axios_get net;
     Download.axios_get_stream := Download.axios_get_stream net;
     Download.sendVideo := λ _ _, Some (Download.Rejected "ETELEGRAM") |}.

Definition site0 : Download.site :=
  {| Download.process := Sample.world0;
     Download.reports := [];
     Download.channel := [] |}.

End SampleNet.

(** * Properties *)

(** ** Concrete runs of the library functions *)

Example split_range : JS.split "-" "100-199" = ["100"; "199"].
Proof. reflexivity. Qed.

Example split_open_range : JS.split "-" "5-" = ["5"; ""].
Proof. reflexivity. Qed.

Example split_suffix_range : JS.split "-" "-500" = [""; "500"].
Proof. reflexivity. Qed.

Example split_empty : JS.split "-" "" = [""].
Proof. reflexivity. Qed.

Example replace_first_once :
  JS.replace_first "bytes=" "xbytes=1-2bytes=" = "x1-2bytes=".
Proof. reflexivity. Qed.

Example parseInt_prefix : JS.parseInt "  +12ab" = JS.Int 12.
Proof. reflexivity. Qed.

Example parseInt_letters : JS.parseInt "abc" = JS.NaN.
Proof. reflexivity. Qed.

Example parseInt_empty : JS.parseInt "" = JS.NaN.
Proof. reflexivity. Qed.

Example to_string_size : JS.to_string (JS.Int 1000) = "1000".
Proof. reflexivity. Qed.

Example join_downloads : Path.join ["/srv/app"; "downloads"] = "/srv/app/downloads".
Proof. reflexivity. Qed.

Example join_normalizes :
  Path.join ["/srv/app/downloads"; "a//b/./c/"] = "/srv/app/downloads/a/b/c/".
Proof. reflexivity. Qed.

Example join_above_root : Path.join ["/srv/app/downloads"; "../../../../x"] = "/x".
Proof. reflexivity. Qed.

Example join_relative : Path.join ["a"; "../../b"] = "../b".
Proof. reflexivity. Qed.

Example basename_file : Path.basename "/srv/app/downloads/clip.mp4" = "clip.mp4".
Proof. reflexivity. Qed.

Example readdir_downloads :
  fs_readdir "/srv/app/downloads" Sample.world0
  = (Returned (inr ["old.mp4"; "clip.mp4"]), Sample.world0).
Proof. vm_compute. reflexivity. Qed.

Example ticks_utc : ticks 0 0 10800000 = [3600000; 7200000; 10800000].
Proof. reflexivity. Qed.

Example ticks_half_hour_zone : ticks 19800000 1 10800000 = [1800000; 5400000; 9000000].
Proof. reflexivity. Qed.

(** ** Facts about the JavaScript helpers *)

Module JSFacts.
Import JS.

Lemma app_nil s : "" +:+ s = s.
Proof. reflexivity. Qed.

Lemma app_cons c s1 s2 : String c s1 +:+ s2 = String c (s1 +:+ s2).
Proof. reflexivity. Qed.

Lemma app_assoc s1 s2 s3 : (s1 +:+ s2) +:+ s3 = s1 +:+ (s2 +:+ s3).
Proof.
  induction s1 as [|c s1 IH]; [done|].
  by rewrite !app_cons, IH.
Qed.

Lemma strip_prefix_app pat s : strip_prefix pat (pat +:+ s) = Some s.
Proof.
  induction pat as [|c pat IH].
  - by destruct s.
  - rewrite app_cons. simpl. by rewrite Ascii.eqb_refl.
Qed.

Lemma replace_first_prefix pat s : replace_first pat (pat +:+ s) = s.
Proof.
  destruct (pat +:+ s) as [|c s'] eqn:E; simpl;
    by rewrite <- E, strip_prefix_app.
Qed.

Lemma split_without sep s : occurs sep s = false → split sep s = [s].
Proof.
  induction s as [|c s IH]; simpl; [done|].
  destruct (Ascii.eqb c sep); simpl; [done|].
  intros H. by rewrite IH.
Qed.

Lemma split_app sep s1 s2 :
  occurs sep s1 = false →
  split sep (s1 +:+ String sep "" +:+ s2) = s1 :: split sep s2.
Proof.
  rewrite app_cons, app_nil.
  induction s1 as [|c s1 IH]; [rewrite app_nil|rewrite app_cons]; simpl.
  - by rewrite Ascii.eqb_refl.
  - destruct (Ascii.eqb c sep); simpl; [done|].
    intros H. by rewrite IH.
Qed.

Lemma is_digit_digit_char d : 0 ≤ d < 10 → is_digit (digit_char d) = true.
Proof.
  intros H.
  assert (d = 0 ∨ d = 1 ∨ d = 2 ∨ d = 3 ∨ d = 4 ∨ d = 5 ∨ d = 6 ∨ d = 7
          ∨ d = 8 ∨ d = 9) as Hd by lia.
  repeat (destruct Hd as [->|Hd]; [reflexivity|]). by subst.
Qed.

Lemma digit_value_digit_char d : 0 ≤ d < 10 → digit_value (digit_char d) = d.
Proof.
  intros H.
  assert (d = 0 ∨ d = 1 ∨ d = 2 ∨ d = 3 ∨ d = 4 ∨ d = 5 ∨ d = 6 ∨ d = 7
          ∨ d = 8 ∨ d = 9) as Hd by lia.
  repeat (destruct Hd as [->|Hd]; [reflexivity|]). by subst.
Qed.

Lemma is_digit_not_minus c : is_digit c = true → Ascii.eqb c "-" = false.
Proof.
  destruct (Ascii.eqb_spec c "-") as [->|]; [|done].
  vm_compute. discriminate.
Qed.

Lemma all_digits_no_minus s : all_digits s = true → occurs "-" s = false.
Proof.
  induction s as [|c s IH]; simpl; [done|].
  intros [Hc Hs]%andb_prop. by rewrite is_digit_not_minus, IH.
Qed.

Lemma decimal_go_app fuel n acc :
  decimal_go fuel n acc = decimal_go fuel n "" +:+ acc.
Proof.
  revert n acc. induction fuel as [|fuel IH]; intros n acc; simpl; [done|].
  destruct (n <? 10); [done|].
  by rewrite IH, (IH _ (String _ "")), app_assoc.
Qed.

Lemma all_digits_app s1 s2 :
  all_digits (s1 +:+ s2) = all_digits s1 && all_digits s2.
Proof.
  induction s1 as [|c s1 IH]; [done|].
  rewrite app_cons. simpl. by rewrite IH, andb_assoc.
Qed.

Lemma read_digits_app acc s1 s2 :
  all_digits s1 = true →
  read_digits acc (s1 +:+ s2) = read_digits (read_digits acc s1) s2.
Proof.
  revert acc. induction s1 as [|c s1 IH]; intros acc; [done|].
  rewrite app_cons. simpl.
  intros [-> Hs]%andb_prop. by apply IH.
Qed.

Lemma decimal_go_digits fuel n :
  0 ≤ n → all_digits (decimal_go fuel n "") = true.
Proof.
  revert n. induction fuel as [|fuel IH]; intros n Hn; simpl; [done|].
  assert (is_digit (digit_char (n mod 10)) = true) as Hd
    by (apply is_digit_digit_char, Z.mod_pos_bound; lia).
  destruct (n <? 10); simpl; [by rewrite Hd|].
  rewrite decimal_go_app, all_digits_app, IH by (apply Z.div_pos; lia).
  simpl. by rewrite Hd.
Qed.

Lemma decimal_go_value fuel n :
  0 ≤ n < 2 ^ Z.of_nat fuel → read_digits 0 (decimal_go fuel n "") = n.
Proof.
  revert n. induction fuel as [|fuel IH]; intros n Hn.
  - simpl in *. lia.
  - simpl decimal_go.
    assert (0 ≤ n mod 10 < 10) as Hm by (apply Z.mod_pos_bound; lia).
    destruct (Z.ltb_spec n 10) as [Hlt|Hge].
    + simpl. rewrite is_digit_digit_char, digit_value_digit_char by done.
      rewrite Z.mod_small; lia.
    + rewrite decimal_go_app, read_digits_app
        by (apply decimal_go_digits, Z.div_pos; lia).
      rewrite IH.
      * simpl. rewrite is_digit_digit_char, digit_value_digit_char by done.
        pose proof (Z.div_mod n 10). lia.
      * rewrite Nat2Z.inj_succ, Z.pow_succ_r in Hn by lia.
        split; [apply Z.div_pos; lia|].
        apply Z.div_lt_upper_bound; lia.
Qed.

Lemma decimal_digits n : 0 ≤ n → all_digits (decimal n) = true.
Proof. apply decimal_go_digits. Qed.

Lemma decimal_value n : 0 ≤ n → read_digits 0 (decimal n) = n.
Proof.
  intros Hn. apply decimal_go_value. split; [done|].
  rewrite Nat2Z.inj_succ, Z2Nat.id by apply Z.log2_nonneg.
  destruct (decide (n = 0)) as [->|]; [done|].
  apply Z.log2_spec. lia.
Qed.

Lemma decimal_nonempty n : truthy (decimal n) = true.
Proof.
  unfold decimal. simpl. destruct (n <? 10); [done|].
  rewrite decimal_go_app.
  by destruct (decimal_go _ _ "").
Qed.

Lemma parseInt_digits s :
  starts_with_digit s = true → parseInt s = of_integer (read_digits 0 s).
Proof.
  destruct s as [|c s]; [done|]. simpl starts_with_digit.
  intros H.
  destruct c as [[] [] [] [] [] [] [] []];
    try (vm_compute in H; discriminate H);
    unfold parseInt; simpl; f_equal; lia.
Qed.

Lemma safe_below_overflow : MAX_SAFE_INTEGER < OVERFLOW.
Proof. by vm_compute. Qed.

Lemma of_integer_safe n : 0 ≤ n ≤ MAX_SAFE_INTEGER → of_integer n = Int n.
Proof.
  intros Hn. pose proof safe_below_overflow. unfold of_integer.
  destruct (Z.leb_spec OVERFLOW n); [lia|].
  by destruct (Z.leb_spec n (- OVERFLOW)); [lia|].
Qed.

Lemma parseInt_decimal n :
  0 ≤ n ≤ MAX_SAFE_INTEGER → parseInt (decimal n) = Int n.
Proof.
  intros [Hn Hmax].
  rewrite parseInt_digits, decimal_value, of_integer_safe; [done..|].
  pose proof (decimal_digits n Hn) as Hd.
  pose proof (decimal_nonempty n) as Hne.
  destruct (decimal n) as [|c s]; [done|].
  simpl in *. by apply andb_prop in Hd as [-> _].
Qed.

Lemma to_string_nonneg n : 0 ≤ n → to_string (Int n) = decimal n.
Proof. intros Hn. unfold to_string. by destruct (Z.ltb_spec n 0); [lia|]. Qed.

End JSFacts.

(** ** Running the library calls *)

Section Calls.
Import JS.

Lemma existsSync_Some path w n :
  files w !! path = Some n → existsSync path w = (Returned true, w).
Proof. intros H. unfold existsSync. by rewrite H, bool_decide_true by eauto. Qed.

Lemma existsSync_None path w :
  files w !! path = None → existsSync path w = (Returned false, w).
Proof.
  intros H. unfold existsSync. rewrite H, bool_decide_false; [done|].
  by intros [? ?].
Qed.

Lemma statSync_Some path w n :
  files w !! path = Some n → statSync path w = (Returned (stats_of n), w).
Proof. intros H. unfold statSync. by rewrite H. Qed.

Lemma createReadStream_range path s e w :
  0 ≤ s → s ≤ e → e ≤ MAX_SAFE_INTEGER →
  createReadStream path (Some (Int s, Int e)) w
  = (Returned {| rs_path := path; rs_start := s; rs_end := Some e |}, w).
Proof.
  intros Hs Hse He.
  unfold createReadStream, validateInteger, lift_outcome, mbind, M_bind, gt.
  destruct (Z.ltb_spec s 0); [lia|].
  destruct (Z.ltb_spec MAX_SAFE_INTEGER s); [lia|].
  destruct (Z.ltb_spec e 0); [lia|].
  destruct (Z.ltb_spec MAX_SAFE_INTEGER e); [lia|].
  destruct (Z.ltb_spec e s); [lia|]. done.
Qed.

(** [fs.createReadStream] either returns a stream on the path it was
    given or throws a range error; it never touches the process state. *)
Lemma createReadStream_cases path options w :
  (∃ rs, createReadStream path options w = (Returned rs, w) ∧ rs_path rs = path)
  ∨ (∃ name received,
       createReadStream path options w = (Threw (ERR_OUT_OF_RANGE name received), w)).
Proof.
  destruct options as [[start end_]|]; [|left; by eexists].
  unfold createReadStream, validateInteger, lift_outcome, mbind, M_bind, throw.
  destruct start as [|s| |]; try (right; by do 2 eexists).
  destruct ((s <? 0) || (MAX_SAFE_INTEGER <? s)); [right; by do 2 eexists|].
  destruct end_ as [|e| |]; try (right; by do 2 eexists); [|left; by eexists].
  destruct ((e <? 0) || (MAX_SAFE_INTEGER <? e)); [right; by do 2 eexists|].
  destruct (gt (Int s) (Int e)); [right; by do 2 eexists|left; by eexists].
Qed.

Lemma pipe_regular rs w content mtime :
  files w !! rs_path rs = Some (Node (Regular content) mtime) →
  pipe rs w = (Returned (Bytes (stream_bytes rs content)), w).
Proof. intros H. unfold pipe. by rewrite H. Qed.

(** The bytes of a stream on [[a, b]] within the file are the bytes of
    the file at these positions. *)
Lemma stream_bytes_range path a b (content : list byte) :
  0 ≤ a → a ≤ b → b ≤ Z.of_nat (length content) - 1 →
  let bs := stream_bytes {| rs_path := path; rs_start := a; rs_end := Some b |} content in
  Z.of_nat (length bs) = b - a + 1
  ∧ ∀ i, a ≤ i ≤ b → bs !! Z.to_nat (i - a) = content !! Z.to_nat i.
Proof.
  intros Ha Hab Hb. unfold stream_bytes. simpl.
  rewrite (Z.min_l a), (Z.min_l (b + 1)) by lia. split.
  - rewrite length_take, length_drop. lia.
  - intros i Hi. rewrite lookup_take_lt, lookup_drop by lia.
    f_equal. lia.
Qed.

Lemma stream_bytes_whole path (content : list byte) :
  stream_bytes {| rs_path := path; rs_start := 0; rs_end := None |} content = content.
Proof.
  unfold stream_bytes. simpl. rewrite Z.min_l by lia. simpl.
  rewrite drop_0. apply take_ge. lia.
Qed.

End Calls.

(** ** The range streaming responder *)

Section Watch.
Import JS JSFacts.

Lemma truthy_bytes s : truthy ("bytes=" +:+ s) = true.
Proof. reflexivity. Qed.

(** C1. For a file of size [S] at the path derived from [filename] and
    a range header [bytes=a-b] with [0 <= a <= b <= S-1], the
    [/watch/:filename] handler answers 206 with
    [Content-Range: bytes a-b/S], [Accept-Ranges: bytes],
    [Content-Length: b-a+1], [Content-Type: video/mp4] and a body made
    of exactly the bytes of the file at positions [a] to [b]; for the
    header [bytes=a-] the end is [S-1].  The process state is left as
    it was.  Sizes are JavaScript numbers: the last offset [S-1] is a
    safe integer. *)
Theorem watch_range __dirname filename w content mtime a b :
  files w !! Path.join [downloadsDir __dirname; filename]
    = Some (Node (Regular content) mtime) →
  Z.of_nat (length content) - 1 ≤ MAX_SAFE_INTEGER →
  0 ≤ a → a ≤ b → b ≤ Z.of_nat (length content) - 1 →
  (∃ bs,
     watch __dirname filename
       (Some ("bytes=" +:+ decimal a +:+ "-" +:+ decimal b)) w
     = (Returned
          {| status := 206;
             headers :=
               [ ("Content-Range",
                  HString ("bytes " +:+ decimal a +:+ "-" +:+ decimal b +:+ "/"
                           +:+ decimal (Z.of_nat (length content))));
                 ("Accept-Ranges", HString "bytes");
                 ("Content-Length", HNumber (Int (b - a + 1)));
                 ("Content-Type", HString "video/mp4") ];
             body := Bytes bs |}, w)
     ∧ Z.of_nat (length bs) = b - a + 1
     ∧ ∀ i, a ≤ i ≤ b → bs !! Z.to_nat (i - a) = content !! Z.to_nat i)
  ∧ (∃ bs,
       watch __dirname filename (Some ("bytes=" +:+ decimal a +:+ "-")) w
       = (Returned
            {| status := 206;
               headers :=
                 [ ("Content-Range",
                    HString ("bytes " +:+ decimal a +:+ "-"
                             +:+ decimal (Z.of_nat (length content) - 1) +:+ "/"
                             +:+ decimal (Z.of_nat (length content))));
                   ("Accept-Ranges", HString "bytes");
                   ("Content-Length",
                    HNumber (Int (Z.of_nat (length content) - 1 - a + 1)));
                   ("Content-Type", HString "video/mp4") ];
               body := Bytes bs |}, w)
       ∧ Z.of_nat (length bs) = Z.of_nat (length content) - a
       ∧ ∀ i, a ≤ i ≤ Z.of_nat (length content) - 1 →
              bs !! Z.to_nat (i - a) = content !! Z.to_nat i).
Proof.
  intros Hf HS Ha Hab Hb.
  assert (occurs "-" (decimal a) = false) as Hna
    by (apply all_digits_no_minus, decimal_digits; lia).
  assert (occurs "-" (decimal b) = false) as Hnb
    by (apply all_digits_no_minus, decimal_digits; lia).
  unfold watch. set (p := Path.join _) in *. clearbody p.
  rewrite !truthy_bytes, !replace_first_prefix.
  replace (decimal a +:+ "-") with (decimal a +:+ "-" +:+ "")
    by reflexivity.
  rewrite !split_app by done. rewrite split_without by done.
  simpl.
  rewrite decimal_nonempty, !parseInt_decimal by lia.
  unfold mbind, M_bind.
  rewrite !(existsSync_Some _ _ _ Hf). simpl.
  rewrite !(statSync_Some _ _ _ Hf). simpl.
  rewrite !createReadStream_range by lia.
  erewrite !pipe_regular by done.
  rewrite !to_string_nonneg by lia.
  split; eexists; (split; [reflexivity|]).
  - by apply stream_bytes_range.
  - destruct (stream_bytes_range p a (Z.of_nat (length content) - 1) content)
      as [Hlen Hget]; [lia..|].
    split; [etrans; [exact Hlen|lia]|exact Hget].
Qed.

Lemma watch_range_witness :
  (files Sample.world0 !! Path.join [downloadsDir Sample.dir; "clip.mp4"]
     = Some (Node (Regular Sample.clip) 1000)
   ∧ Z.of_nat (length Sample.clip) - 1 ≤ MAX_SAFE_INTEGER
   ∧ 0 ≤ 100 ∧ 100 ≤ 199 ∧ 199 ≤ Z.of_nat (length Sample.clip) - 1)
  ∧ ∃ bs,
      watch Sample.dir "clip.mp4" (Some "bytes=100-199") Sample.world0
      = (Returned
           {| status := 206;
              headers :=
                [ ("Content-Range", HString "bytes 100-199/1000");
                  ("Accept-Ranges", HString "bytes");
                  ("Content-Length", HNumber (Int 100));
                  ("Content-Type", HString "video/mp4") ];
              body := Bytes bs |}, Sample.world0)
      ∧ Z.of_nat (length bs) = 100
      ∧ ∀ i, 100 ≤ i ≤ 199 →
             bs !! Z.to_nat (i - 100) = Sample.clip !! Z.to_nat i.
Proof.
  assert (files Sample.world0 !! Path.join [downloadsDir Sample.dir; "clip.mp4"]
          = Some (Node (Regular Sample.clip) 1000)) as Hf by (vm_compute; reflexivity).
  assert (Z.of_nat (length Sample.clip) - 1 ≤ MAX_SAFE_INTEGER) as HS
    by (vm_compute; discriminate).
  assert (199 ≤ Z.of_nat (length Sample.clip) - 1) as Hb
    by (vm_compute; discriminate).
  split; [split; [exact Hf|split; [exact HS|split; [lia|split; [lia|exact Hb]]]]|].
  exact (proj1 (watch_range Sample.dir "clip.mp4" Sample.world0 Sample.clip
                  1000 100 199 Hf HS ltac:(lia) ltac:(lia) Hb)).
Defined.

(** C2. For a file of size [S] at the path derived from [filename], a
    request without a range header is answered 200 with
    [Content-Length: S], [Content-Type: video/mp4] and the [S] bytes of
    the file as body. *)
Theorem watch_full __dirname filename w content mtime :
  files w !! Path.join [downloadsDir __dirname; filename]
    = Some (Node (Regular content) mtime) →
  watch __dirname filename None w
  = (Returned
       {| status := 200;
          headers :=
            [ ("Content-Length", HNumber (Int (Z.of_nat (length content))));
              ("Content-Type", HString "video/mp4") ];
          body := Bytes content |}, w).
Proof.
  intros Hf. unfold watch. set (p := Path.join _) in *. clearbody p.
  unfold mbind, M_bind.
  rewrite (existsSync_Some _ _ _ Hf). simpl.
  rewrite (statSync_Some _ _ _ Hf). simpl.
  unfold createReadStream, mret, M_ret.
  erewrite pipe_regular by done.
  by rewrite stream_bytes_whole.
Qed.

Lemma watch_full_witness :
  files Sample.world0 !! Path.join [downloadsDir Sample.dir; "clip.mp4"]
    = Some (Node (Regular Sample.clip) 1000)
  ∧ watch Sample.dir "clip.mp4" None Sample.world0
    = (Returned
         {| status := 200;
            headers :=
              [ ("Content-Length", HNumber (Int (Z.of_nat (length Sample.clip))));
                ("Content-Type", HString "video/mp4") ];
            body := Bytes Sample.clip |}, Sample.world0).
Proof.
  assert (files Sample.world0 !! Path.join [downloadsDir Sample.dir; "clip.mp4"]
          = Some (Node (Regular Sample.clip) 1000)) as Hf by (vm_compute; reflexivity).
  split; [exact Hf|].
  exact (watch_full Sample.dir "clip.mp4" Sample.world0 Sample.clip 1000 Hf).
Defined.

(** C3. When nothing exists at the path derived from [filename], the
    handler answers 404 with the text [Video not found], whatever the
    range header, and the process state (the File Store included) is
    unchanged. *)
Theorem watch_missing __dirname filename range w :
  files w !! Path.join [downloadsDir __dirname; filename] = None →
  watch __dirname filename range w
  = (Returned {| status := 404; headers := []; body := Text "Video not found" |}, w).
Proof.
  intros Hf. unfold watch. set (p := Path.join _) in *. clearbody p.
  unfold mbind, M_bind. by rewrite (existsSync_None _ _ Hf).
Qed.

Lemma watch_missing_witness :
  files Sample.world0 !! Path.join [downloadsDir Sample.dir; "nothing.mp4"] = None
  ∧ watch Sample.dir "nothing.mp4" (Some "bytes=0-") Sample.world0
    = (Returned {| status := 404; headers := []; body := Text "Video not found" |},
       Sample.world0).
Proof.
  assert (files Sample.world0 !! Path.join [downloadsDir Sample.dir; "nothing.mp4"]
          = None) as Hf by (vm_compute; reflexivity).
  split; [exact Hf|].
  exact (watch_missing Sample.dir "nothing.mp4" (Some "bytes=0-") Sample.world0 Hf).
Defined.

(** C8 does not hold as stated: on the existing 1000-byte file
    and the header [bytes=-500], [start] is [NaN], [fs.createReadStream]
    throws before any header of the response is written, and what the
    client gets from the router is a 500, not one of 404, 200 or 206. *)
Lemma watch_malformed_range_500 :
  files Sample.world0 !! Path.join [downloadsDir Sample.dir; "clip.mp4"]
    = Some (Node (Regular Sample.clip) 1000)
  ∧ watch Sample.dir "clip.mp4" (Some "bytes=-500") Sample.world0
    = (Threw (ERR_OUT_OF_RANGE "start" NaN), Sample.world0)
  ∧ express_handle (watch Sample.dir "clip.mp4" (Some "bytes=-500")) Sample.world0
    = (Returned
         {| status := 500; headers := [];
            body := ErrorPage (ERR_OUT_OF_RANGE "start" NaN) |}, Sample.world0)
  ∧ ¬ (∃ r,
         (express_handle (watch Sample.dir "clip.mp4" (Some "bytes=-500"))
            Sample.world0).1 = Returned r
         ∧ (status r = 404 ∨ status r = 200 ∨ status r = 206)).
Proof.
  assert (watch Sample.dir "clip.mp4" (Some "bytes=-500") Sample.world0
          = (Threw (ERR_OUT_OF_RANGE "start" NaN), Sample.world0)) as Hw
    by (vm_compute; reflexivity).
  split; [vm_compute; reflexivity|]. split; [exact Hw|].
  unfold express_handle. rewrite Hw. split; [reflexivity|].
  intros (r & Hr & Hs). simpl in Hr. injection Hr as <-. simpl in Hs.
  destruct Hs as [Hs|[Hs|Hs]]; discriminate Hs.
Qed.

(** C8, amended.  For an existing file and any range header, malformed
    ones included, the route always ends with a response and leaves the
    process state as it was: the status is 200 or 206, or it is the
    router's 500 for the range error thrown by [fs.createReadStream]. *)
Theorem watch_any_range_responds __dirname filename range w content mtime :
  files w !! Path.join [downloadsDir __dirname; filename]
    = Some (Node (Regular content) mtime) →
  ∃ r,
    express_handle (watch __dirname filename range) w = (Returned r, w)
    ∧ (status r = 200 ∨ status r = 206
       ∨ (status r = 500
          ∧ ∃ name received, body r = ErrorPage (ERR_OUT_OF_RANGE name received))).
Proof.
  intros Hf. unfold express_handle, watch.
  set (p := Path.join _) in *. clearbody p.
  unfold mbind, M_bind.
  rewrite (existsSync_Some _ _ _ Hf). simpl.
  rewrite (statSync_Some _ _ _ Hf). simpl.
  assert (∀ o, rs_path o = p →
               pipe o w = (Returned (Bytes (stream_bytes o content)), w)) as Hpipe
    by (intros o <-; by eapply pipe_regular).
  destruct range as [range|]; [destruct (truthy range)|].
  - match goal with
    | |- context [createReadStream p ?o w] =>
        destruct (createReadStream_cases p o w)
          as [(rs & -> & Hrs)|(name & received & ->)]
    end.
    + rewrite (Hpipe rs Hrs). eexists. split; [reflexivity|]. simpl. auto.
    + eexists. split; [reflexivity|]. simpl. eauto 10.
  - unfold createReadStream, mret, M_ret. rewrite Hpipe by done.
    eexists. split; [reflexivity|]. simpl. auto.
  - unfold createReadStream, mret, M_ret. rewrite Hpipe by done.
    eexists. split; [reflexivity|]. simpl. auto.
Qed.

Lemma watch_any_range_responds_witness :
  files Sample.world0 !! Path.join [downloadsDir Sample.dir; "clip.mp4"]
    = Some (Node (Regular Sample.clip) 1000)
  ∧ ∃ r,
      express_handle (watch Sample.dir "clip.mp4" (Some "bytes=abc-")) Sample.world0
      = (Returned r, Sample.world0)
      ∧ (status r = 200 ∨ status r = 206
         ∨ (status r = 500
            ∧ ∃ name received, body r = ErrorPage (ERR_OUT_OF_RANGE name received))).
Proof.
  assert (files Sample.world0 !! Path.join [downloadsDir Sample.dir; "clip.mp4"]
          = Some (Node (Regular Sample.clip) 1000)) as Hf by (vm_compute; reflexivity).
  split; [exact Hf|].
  exact (watch_any_range_responds Sample.dir "clip.mp4" (Some "bytes=abc-")
           Sample.world0 Sample.clip 1000 Hf).
Defined.

(** C4.  The path the route derives from [filename] is not confined to
    the downloads directory: for [../index.js] (the route parameter of
    [/watch/..%2Findex.js]) it is the source file next to the downloads
    directory, and the route serves that file. *)
Theorem watch_path_escapes_root :
  Path.join [downloadsDir Sample.dir; "../index.js"] = "/srv/app/index.js"
  ∧ Path.inside (downloadsDir Sample.dir)
      (Path.join [downloadsDir Sample.dir; "../index.js"]) = false
  ∧ watch Sample.dir "../index.js" None Sample.world0
    = (Returned
         {| status := 200;
            headers := [ ("Content-Length", HNumber (Int 2));
                         ("Content-Type", HString "video/mp4") ];
            body := Bytes [x2f; x2f] |}, Sample.world0).
Proof. repeat split; vm_compute; reflexivity. Qed.

End Watch.

(** ** Paths of directory entries *)

Section PathFacts.
Import JS JSFacts Path.

Lemma plain_spec name :
  plain name = true →
  truthy name = true ∧ occurs "/" name = false
  ∧ String.eqb name "" = false ∧ String.eqb name "." = false
  ∧ String.eqb name ".." = false.
Proof.
  unfold plain. intros [[[Ht Hs]%andb_prop Hd]%andb_prop Hdd]%andb_prop.
  apply negb_true_iff in Hs, Hd, Hdd. by destruct name.
Qed.

Lemma join_with_slash_snoc segs name :
  segs ≠ [] →
  join_with_slash (segs ++ [name]) = join_with_slash segs +:+ "/" +:+ name.
Proof.
  induction segs as [|seg [|seg' segs] IH]; intros Hne; [done|done|].
  change (join_with_slash ((seg :: seg' :: segs) ++ [name]))
    with (seg +:+ "/" +:+ join_with_slash ((seg' :: segs) ++ [name])).
  rewrite IH by done.
  change (join_with_slash (seg :: seg' :: segs))
    with (seg +:+ "/" +:+ join_with_slash (seg' :: segs)).
  by rewrite !app_assoc.
Qed.

Lemma split_join_with_slash segs :
  segs ≠ [] → Forall (λ seg, plain seg = true) segs →
  split "/" (join_with_slash segs) = segs.
Proof.
  induction segs as [|seg [|seg' segs] IH]; intros Hne Hplain; [done| |].
  - apply Forall_cons_1 in Hplain as [(_ & Hs & _)%plain_spec _].
    by apply split_without.
  - apply Forall_cons_1 in Hplain as [(_ & Hs & _)%plain_spec Hplain].
    change (join_with_slash (seg :: seg' :: segs))
      with (seg +:+ "/" +:+ join_with_slash (seg' :: segs)).
    by rewrite split_app, IH.
Qed.

Lemma normalize_segments_plain allowAboveRoot res segs :
  Forall (λ seg, plain seg = true) segs →
  normalize_segments allowAboveRoot res segs = (rev res ++ segs)%list.
Proof.
  revert res. induction segs as [|seg segs IH]; intros res Hplain; simpl.
  - by rewrite app_nil_r.
  - apply Forall_cons_1 in Hplain as [(_ & _ & -> & -> & ->)%plain_spec Hplain].
    simpl. rewrite IH by done. simpl. by rewrite <- List.app_assoc.
Qed.

Lemma ends_with_slash_app s1 s2 :
  truthy s2 = true → ends_with_slash (s1 +:+ s2) = ends_with_slash s2.
Proof.
  intros Hs2. induction s1 as [|c s1 IH]; [done|].
  rewrite app_cons. simpl. rewrite IH.
  destruct (s1 +:+ s2) eqn:E; [|done].
  destruct s1; [|done]. rewrite app_nil in E. by subst.
Qed.

Lemma ends_with_slash_occurs s : occurs "/" s = false → ends_with_slash s = false.
Proof.
  induction s as [|c s IH]; [done|]. simpl.
  intros [Hc Hs]%orb_false_elim. destruct s; [done|]. by apply IH.
Qed.

Lemma join_with_slash_truthy segs :
  segs ≠ [] → Forall (λ seg, plain seg = true) segs →
  truthy (join_with_slash segs) = true.
Proof.
  destruct segs as [|seg [|seg' segs]]; intros Hne Hplain; [done| |];
    apply Forall_cons_1 in Hplain as [(Ht & _)%plain_spec _]; [done|].
  change (join_with_slash (seg :: seg' :: segs))
    with (seg +:+ "/" +:+ join_with_slash (seg' :: segs)).
  by destruct seg.
Qed.

(** An absolute path made of plain segments is in normal form. *)
Lemma normalize_absolute segs :
  segs ≠ [] → Forall (λ seg, plain seg = true) segs →
  normalize (absolute segs) = absolute segs.
Proof.
  intros Hne Hplain. unfold normalize, absolute.
  change (("/" +:+ join_with_slash segs)) with (String "/" (join_with_slash segs)).
  assert (ends_with_slash (String "/" (join_with_slash segs)) = false) as ->.
  { change (String "/" (join_with_slash segs)) with ("/" +:+ join_with_slash segs).
    rewrite ends_with_slash_app by by apply join_with_slash_truthy.
    destruct (exists_last Hne) as (segs' & seg & ->).
    apply Forall_app in Hplain as [_ [(Ht & Hs & _)%plain_spec _]%Forall_cons_1].
    destruct segs' as [|seg' segs'].
    - by apply ends_with_slash_occurs.
    - rewrite join_with_slash_snoc by done.
      change (?a +:+ "/" +:+ seg) with (a +:+ ("/" +:+ seg)).
      rewrite ends_with_slash_app by done.
      change ("/" +:+ seg) with (String "/" seg).
      simpl. destruct seg; [done|]. by apply ends_with_slash_occurs. }
  simpl. rewrite split_join_with_slash by done.
  rewrite normalize_segments_plain by done. simpl.
  pose proof (join_with_slash_truthy segs Hne Hplain) as Ht.
  by destruct (join_with_slash segs).
Qed.

(** Joining a directory in normal form with the name of one of its
    entries appends the name. *)
Lemma join_plain segs name :
  segs ≠ [] → Forall (λ seg, plain seg = true) segs → plain name = true →
  Path.join [absolute segs; name] = absolute segs +:+ "/" +:+ name
  ∧ Path.join [absolute segs; name] = absolute (segs ++ [name]).
Proof.
  intros Hne Hplain Hname.
  assert (absolute segs +:+ "/" +:+ name = absolute (segs ++ [name])) as Heq.
  { unfold absolute. by rewrite join_with_slash_snoc, !app_assoc. }
  rewrite Heq.
  enough (Path.join [absolute segs; name] = absolute (segs ++ [name])) by done.
  unfold Path.join.
  destruct (plain_spec name Hname) as (Ht & _).
  rewrite filter_cons_True by done.
  rewrite filter_cons_True by done. rewrite filter_nil.
  change (join_with_slash [absolute segs; name])
    with (absolute segs +:+ "/" +:+ name).
  rewrite Heq. apply normalize_absolute.
  - by destruct segs.
  - apply Forall_app. split; [done|]. by apply Forall_singleton.
Qed.

Lemma entry_name_plain dir name :
  plain name = true → entry_name dir (dir +:+ "/" +:+ name) = Some name.
Proof.
  intros (Ht & Hs & _)%plain_spec. unfold entry_name.
  by rewrite <- app_assoc, strip_prefix_app, Ht, Hs.
Qed.

(** For an installation directory in normal form, the path the cleanup
    job derives from a plain name is the path under which the downloads
    directory lists that name. *)
Lemma downloads_entry segs file :
  segs ≠ [] → Forall (λ seg, plain seg = true) segs → plain file = true →
  Path.join [downloadsDir (absolute segs); file]
  = downloadsDir (absolute segs) +:+ "/" +:+ file
  ∧ entry_name (downloadsDir (absolute segs))
      (downloadsDir (absolute segs) +:+ "/" +:+ file) = Some file.
Proof.
  intros Hne Hplain Hfile. split; [|by apply entry_name_plain].
  unfold downloadsDir.
  destruct (join_plain segs "downloads" Hne Hplain eq_refl) as [_ ->].
  apply join_plain; [by destruct segs| |done].
  apply Forall_app. split; [done|]. by apply Forall_singleton.
Qed.

End PathFacts.

(** ** The retention scheduler *)

Section Retention.

Lemma fs_unlink_missing path w :
  files w !! path = None → fs_unlink path w = (Returned (Some ENOENT), w).
Proof. intros H. unfold fs_unlink. by rewrite H. Qed.

Lemma fs_unlink_regular path w content mtime :
  files w !! path = Some (Node (Regular content) mtime) →
  fs_unlink path w = (Returned None, set_files (delete path) w).
Proof. intros H. unfold fs_unlink. by rewrite H. Qed.

Lemma fs_unlink_directory path w dsize mtime :
  files w !! path = Some (Node (Directory dsize) mtime) →
  fs_unlink path w = (Returned (Some EISDIR), w).
Proof. intros H. unfold fs_unlink. by rewrite H. Qed.

Lemma fs_stat_missing path w :
  files w !! path = None → fs_stat path w = (Returned (inl ENOENT), w).
Proof. intros H. unfold fs_stat. by rewrite H. Qed.

Lemma fs_stat_Some path w n :
  files w !! path = Some n → fs_stat path w = (Returned (inr (stats_of n)), w).
Proof. intros H. unfold fs_stat. by rewrite H. Qed.

(** What the one-shot deletion does, by what its path names. *)
Lemma delete_video_missing path w :
  files w !! path = None →
  delete_video path w
  = (Returned tt,
     write_console
       (ErrorLine ("Error deleting file " +:+ Path.basename path +:+ ":") ENOENT) w).
Proof.
  intros H. unfold delete_video, mbind, M_bind.
  by rewrite (fs_unlink_missing _ _ H).
Qed.

Lemma delete_video_regular path w content mtime :
  files w !! path = Some (Node (Regular content) mtime) →
  delete_video path w
  = (Returned tt,
     write_console (LogLine ("Deleted file " +:+ Path.basename path))
       (set_files (delete path) w)).
Proof.
  intros H. unfold delete_video, mbind, M_bind.
  by rewrite (fs_unlink_regular _ _ _ _ H).
Qed.

Lemma delete_video_directory path w dsize mtime :
  files w !! path = Some (Node (Directory dsize) mtime) →
  delete_video path w
  = (Returned tt,
     write_console
       (ErrorLine ("Error deleting file " +:+ Path.basename path +:+ ":") EISDIR) w).
Proof.
  intros H. unfold delete_video, mbind, M_bind.
  by rewrite (fs_unlink_directory _ _ _ _ H).
Qed.

(** The one-shot deletion always returns; it keeps the clock and the
    pending jobs, and the only path it can change is its own. *)
Lemma delete_video_effect path w :
  ∃ w', delete_video path w = (Returned tt, w')
        ∧ clock w' = clock w ∧ jobs w' = jobs w
        ∧ (files w' = files w ∨ files w' = delete path (files w)).
Proof.
  destruct (files w !! path) as [[[content|dsize] mtime]|] eqn:H.
  - rewrite (delete_video_regular _ _ _ _ H). eexists. split; [done|]. auto.
  - rewrite (delete_video_directory _ _ _ _ H). eexists. split; [done|]. auto.
  - rewrite (delete_video_missing _ _ H). eexists. split; [done|]. auto.
Qed.

(** C5.  Deleting what is not there is logged and nothing more: the
    one-shot deletion of a missing path, the cleanup job meeting an
    entry that has vanished since the directory was read, and the
    cleanup job unlinking a path that has vanished since it was checked
    all return normally, write one error line to the console and leave
    the files as they were. *)
Theorem delete_missing_is_logged __dirname path file w :
  files w !! path = None →
  files w !! Path.join [downloadsDir __dirname; file] = None →
  delete_video path w
  = (Returned tt,
     write_console
       (ErrorLine ("Error deleting file " +:+ Path.basename path +:+ ":") ENOENT) w)
  ∧ cleanup_file __dirname file w
    = (Returned tt,
       write_console (ErrorLine ("Error stating file " +:+ file +:+ ":") ENOENT) w)
  ∧ cleanup_unlink file path w
    = (Returned tt,
       write_console (ErrorLine ("Error deleting file " +:+ file +:+ ":") ENOENT) w).
Proof.
  intros Hp Hf. split; [by apply delete_video_missing|]. split.
  - unfold cleanup_file, cleanup_check, mbind, M_bind.
    by rewrite (fs_stat_missing _ _ Hf).
  - unfold cleanup_unlink, mbind, M_bind.
    by rewrite (fs_unlink_missing _ _ Hp).
Qed.

Lemma delete_missing_is_logged_witness :
  (files Sample.world0 !! "/srv/app/downloads/gone.mp4" = None
   ∧ files Sample.world0 !! Path.join [downloadsDir Sample.dir; "gone.mp4"] = None)
  ∧ delete_video "/srv/app/downloads/gone.mp4" Sample.world0
    = (Returned tt,
       write_console (ErrorLine "Error deleting file gone.mp4:" ENOENT) Sample.world0)
  ∧ cleanup_file Sample.dir "gone.mp4" Sample.world0
    = (Returned tt,
       write_console (ErrorLine "Error stating file gone.mp4:" ENOENT) Sample.world0)
  ∧ cleanup_unlink "gone.mp4" "/srv/app/downloads/gone.mp4" Sample.world0
    = (Returned tt,
       write_console (ErrorLine "Error deleting file gone.mp4:" ENOENT) Sample.world0).
Proof.
  assert (files Sample.world0 !! "/srv/app/downloads/gone.mp4" = None) as Hp
    by (vm_compute; reflexivity).
  assert (files Sample.world0 !! Path.join [downloadsDir Sample.dir; "gone.mp4"]
          = None) as Hf by (vm_compute; reflexivity).
  split; [by split|].
  exact (delete_missing_is_logged Sample.dir "/srv/app/downloads/gone.mp4"
           "gone.mp4" Sample.world0 Hp Hf).
Defined.

(** C10.  When the one-shot deletion bound to [videoFilePath] fires, it
    returns, and every other path names after it what it named before:
    at most [videoFilePath] itself is removed. *)
Theorem one_shot_frame __dirname videoFilePath date w other :
  other ≠ videoFilePath →
  ∃ w', fire __dirname (date, DeleteFile videoFilePath) w = (Returned tt, w')
        ∧ files w' !! other = files w !! other.
Proof.
  intros Hne. unfold fire, advance_clock, modify, mbind, M_bind. simpl.
  destruct (delete_video_effect videoFilePath
              (set_clock (Z.max (clock w) date) w))
    as (w' & -> & _ & _ & [Hfiles|Hfiles]); eexists; (split; [done|]);
    rewrite Hfiles; simpl; [done|by rewrite lookup_delete_ne].
Qed.

Lemma one_shot_frame_witness :
  "/srv/app/downloads/old.mp4" ≠ Sample.clip_path
  ∧ ∃ w', fire Sample.dir (86402000, DeleteFile Sample.clip_path) Sample.world0
          = (Returned tt, w')
          ∧ files w' !! "/srv/app/downloads/old.mp4"
            = files Sample.world0 !! "/srv/app/downloads/old.mp4".
Proof.
  assert ("/srv/app/downloads/old.mp4" ≠ Sample.clip_path) as Hne by discriminate.
  split; [exact Hne|].
  exact (one_shot_frame Sample.dir Sample.clip_path 86402000 Sample.world0
           "/srv/app/downloads/old.mp4" Hne).
Defined.

(** What the cleanup job does with one entry, by what its path names:
    nothing is there, a regular file that is old, or anything else. *)
Lemma cleanup_file_missing __dirname file w :
  files w !! Path.join [downloadsDir __dirname; file] = None →
  cleanup_file __dirname file w
  = (Returned tt,
     write_console (ErrorLine ("Error stating file " +:+ file +:+ ":") ENOENT) w).
Proof.
  intros H. unfold cleanup_file, cleanup_check, mbind, M_bind.
  by rewrite (fs_stat_missing _ _ H).
Qed.

Lemma cleanup_file_young __dirname file w n :
  files w !! Path.join [downloadsDir __dirname; file] = Some n →
  clock w - mtimeMs n ≤ 24 * 60 * 60 * 1000 →
  cleanup_file __dirname file w = (Returned tt, w).
Proof.
  intros H Hage. unfold cleanup_file, cleanup_check, mbind, M_bind.
  rewrite (fs_stat_Some _ _ _ H). simpl.
  by destruct (Z.ltb_spec (24 * 60 * 60 * 1000) (clock w - mtimeMs n)); [lia|].
Qed.

Lemma cleanup_file_old __dirname file w content mtime :
  files w !! Path.join [downloadsDir __dirname; file]
    = Some (Node (Regular content) mtime) →
  24 * 60 * 60 * 1000 < clock w - mtime →
  cleanup_file __dirname file w
  = (Returned tt,
     write_console (LogLine ("Deleted old file " +:+ file))
       (set_files (delete (Path.join [downloadsDir __dirname; file])) w)).
Proof.
  intros H Hage. unfold cleanup_file, cleanup_check, cleanup_unlink, mbind, M_bind.
  rewrite (fs_stat_Some _ _ _ H). simpl.
  destruct (Z.ltb_spec (24 * 60 * 60 * 1000) (clock w - mtime)); [|lia].
  by rewrite (fs_unlink_regular _ _ _ _ H).
Qed.

Lemma cleanup_file_old_directory __dirname file w dsize mtime :
  files w !! Path.join [downloadsDir __dirname; file]
    = Some (Node (Directory dsize) mtime) →
  24 * 60 * 60 * 1000 < clock w - mtime →
  cleanup_file __dirname file w
  = (Returned tt,
     write_console (ErrorLine ("Error deleting file " +:+ file +:+ ":") EISDIR) w).
Proof.
  intros H Hage. unfold cleanup_file, cleanup_check, cleanup_unlink, mbind, M_bind.
  rewrite (fs_stat_Some _ _ _ H). simpl.
  destruct (Z.ltb_spec (24 * 60 * 60 * 1000) (clock w - mtime)); [|lia].
  by rewrite (fs_unlink_directory _ _ _ _ H).
Qed.

(** C7.  For an entry [file] of the downloads directory whose path
    names a regular file or nothing, the one-shot deletion bound to
    that path and the cleanup job's treatment of the entry end in the
    same File Store whichever runs first, and also when the one-shot
    deletion falls between the cleanup job's check and its unlink: the
    path is absent and every other path is as it was.  Each order
    returns normally. *)
Theorem deletions_commute __dirname file w :
  (∀ dsize mtime,
     files w !! Path.join [downloadsDir __dirname; file]
       ≠ Some (Node (Directory dsize) mtime)) →
  ∃ w1 w2 w3,
    (delete_video (Path.join [downloadsDir __dirname; file]) ;;
     cleanup_file __dirname file) w = (Returned tt, w1)
    ∧ (cleanup_file __dirname file ;;
       delete_video (Path.join [downloadsDir __dirname; file])) w = (Returned tt, w2)
    ∧ (old ← cleanup_check file (Path.join [downloadsDir __dirname; file]);
       delete_video (Path.join [downloadsDir __dirname; file]) ;;
       if (old : bool)
       then cleanup_unlink file (Path.join [downloadsDir __dirname; file])
       else mret tt) w = (Returned tt, w3)
    ∧ files w1 = delete (Path.join [downloadsDir __dirname; file]) (files w)
    ∧ files w2 = files w1
    ∧ files w3 = files w1.
Proof.
  intros Hkind.
  destruct (files w !! Path.join [downloadsDir __dirname; file])
    as [[[content|dsize] mtime]|] eqn:H; [|by destruct (Hkind dsize mtime)|].
  - (* a regular file *)
    unfold mbind, M_bind.
    rewrite (delete_video_regular _ _ _ _ H).
    rewrite cleanup_file_missing by (simpl; apply lookup_delete_eq).
    unfold cleanup_check, mbind, M_bind. rewrite (fs_stat_Some _ _ _ H). simpl.
    rewrite (delete_video_regular _ _ _ _ H).
    destruct (Z.ltb_spec (24 * 60 * 60 * 1000) (clock w - mtime)) as [Hold|Hyoung].
    + rewrite (cleanup_file_old _ _ _ _ _ H Hold).
      rewrite delete_video_missing by (simpl; apply lookup_delete_eq).
      unfold cleanup_unlink, mbind, M_bind.
      rewrite fs_unlink_missing by (simpl; apply lookup_delete_eq).
      by do 3 eexists.
    + rewrite (cleanup_file_young _ _ _ _ H) by done.
      rewrite (delete_video_regular _ _ _ _ H).
      by do 3 eexists.
  - (* nothing there *)
    unfold mbind, M_bind.
    rewrite (delete_video_missing _ _ H).
    rewrite !cleanup_file_missing by done.
    unfold cleanup_check, mbind, M_bind. rewrite (fs_stat_missing _ _ H). simpl.
    rewrite !delete_video_missing by done.
    do 3 eexists. repeat (split; [reflexivity|]). simpl.
    by rewrite delete_id.
Qed.

Lemma deletions_commute_witness :
  (∀ dsize mtime,
     files Sample.world0 !! Path.join [downloadsDir Sample.dir; "clip.mp4"]
       ≠ Some (Node (Directory dsize) mtime))
  ∧ ∃ w1 w2 w3,
      (delete_video (Path.join [downloadsDir Sample.dir; "clip.mp4"]) ;;
       cleanup_file Sample.dir "clip.mp4") Sample.world0 = (Returned tt, w1)
      ∧ (cleanup_file Sample.dir "clip.mp4" ;;
         delete_video (Path.join [downloadsDir Sample.dir; "clip.mp4"])) Sample.world0
        = (Returned tt, w2)
      ∧ (old ← cleanup_check "clip.mp4" (Path.join [downloadsDir Sample.dir; "clip.mp4"]);
         delete_video (Path.join [downloadsDir Sample.dir; "clip.mp4"]) ;;
         if (old : bool)
         then cleanup_unlink "clip.mp4" (Path.join [downloadsDir Sample.dir; "clip.mp4"])
         else mret tt) Sample.world0 = (Returned tt, w3)
      ∧ files w1
        = delete (Path.join [downloadsDir Sample.dir; "clip.mp4"]) (files Sample.world0)
      ∧ files w2 = files w1
      ∧ files w3 = files w1.
Proof.
  assert (∀ dsize mtime,
            files Sample.world0 !! Path.join [downloadsDir Sample.dir; "clip.mp4"]
              ≠ Some (Node (Directory dsize) mtime)) as Hkind.
  { intros dsize mtime.
    replace (files Sample.world0 !! Path.join [downloadsDir Sample.dir; "clip.mp4"])
      with (Some (Node (Regular Sample.clip) 1000)) by (vm_compute; reflexivity).
    discriminate. }
  split; [exact Hkind|].
  exact (deletions_commute Sample.dir "clip.mp4" Sample.world0 Hkind).
Defined.

(** *** One pass of the cleanup job *)

Lemma cleanup_file_effect __dirname file w :
  ∃ w', cleanup_file __dirname file w = (Returned tt, w')
        ∧ clock w' = clock w ∧ jobs w' = jobs w
        ∧ ∀ q, files w' !! q
               = match files w !! q with
                 | Some n =>
                     if bool_decide (q = Path.join [downloadsDir __dirname; file])
                        && expired (clock w) n
                     then None else Some n
                 | None => None
                 end.
Proof.
  set (p := Path.join [downloadsDir __dirname; file]).
  assert (∀ q, files w !! q
               = match files w !! q with Some n => Some n | None => None end) as Hid
    by (intros q; by destruct (files w !! q)).
  destruct (files w !! p) as [[[content|dsize] mtime]|] eqn:H.
  - destruct (Z.ltb_spec (24 * 60 * 60 * 1000) (clock w - mtime)) as [Hold|Hyoung].
    + rewrite (cleanup_file_old _ _ _ _ _ H Hold). eexists.
      split; [done|]. split; [done|]. split; [done|]. intros q. simpl. fold p.
      destruct (decide (q = p)) as [->|Hne].
      * rewrite lookup_delete_eq, H, bool_decide_true by done. unfold expired. simpl.
        by destruct (Z.ltb_spec (24 * 60 * 60 * 1000) (clock w - mtime)); [|lia].
      * rewrite lookup_delete_ne, bool_decide_false by done. apply Hid.
    + rewrite (cleanup_file_young _ _ _ _ H) by done. eexists.
      split; [done|]. split; [done|]. split; [done|]. intros q.
      destruct (decide (q = p)) as [->|Hne].
      * rewrite H, bool_decide_true by done. unfold expired. simpl.
        by destruct (Z.ltb_spec (24 * 60 * 60 * 1000) (clock w - mtime)); [lia|].
      * rewrite bool_decide_false by done. apply Hid.
  - assert (∀ q, files w !! q
               = match files w !! q with
                 | Some n => if bool_decide (q = p) && expired (clock w) n
                             then None else Some n
                 | None => None
                 end) as Hsame.
    { intros q. destruct (decide (q = p)) as [->|Hne].
      - rewrite H. unfold expired. simpl. by rewrite andb_false_r.
      - rewrite bool_decide_false by done. apply Hid. }
    destruct (Z.ltb_spec (24 * 60 * 60 * 1000) (clock w - mtime)) as [Hold|Hyoung].
    + rewrite (cleanup_file_old_directory _ _ _ _ _ H Hold). by eexists.
    + rewrite (cleanup_file_young _ _ _ _ H) by done. by eexists.
  - rewrite (cleanup_file_missing _ _ _ H). eexists.
    split; [done|]. split; [done|]. split; [done|]. intros q. simpl.
    destruct (decide (q = p)) as [->|Hne].
    + by rewrite H.
    + rewrite bool_decide_false by done. apply Hid.
Qed.

Lemma forEach_cleanup_file __dirname names w :
  ∃ w', forEach names (cleanup_file __dirname) w = (Returned tt, w')
        ∧ clock w' = clock w ∧ jobs w' = jobs w
        ∧ ∀ q, files w' !! q
               = match files w !! q with
                 | Some n =>
                     if bool_decide
                          (q ∈ (λ file, Path.join [downloadsDir __dirname; file]) <$> names)
                        && expired (clock w) n
                     then None else Some n
                 | None => None
                 end.
Proof.
  revert w. induction names as [|file names IH]; intros w.
  - eexists. split; [done|]. split; [done|]. split; [done|]. intros q.
    destruct (files w !! q); [|done].
    rewrite bool_decide_false; [done|]. apply not_elem_of_nil.
  - simpl forEach. unfold mbind, M_bind.
    destruct (cleanup_file_effect __dirname file w) as (w1 & -> & Hc1 & Hj1 & Hf1).
    destruct (IH w1) as (w' & -> & Hc' & Hj' & Hf').
    eexists. split; [done|]. split; [congruence|]. split; [congruence|].
    intros q. rewrite Hf', Hf1, Hc1, fmap_cons.
    set (p := Path.join [downloadsDir __dirname; file]).
    set (ps := (λ f, Path.join [downloadsDir __dirname; f]) <$> names).
    destruct (files w !! q) as [n|]; [|done].
    destruct (decide (q = p)) as [->|Hne].
    + rewrite (bool_decide_true (p = p)) by done.
      rewrite (bool_decide_true (p ∈ p :: ps)) by apply list_elem_of_here. simpl.
      destruct (expired (clock w) n) eqn:He; simpl; [done|].
      by rewrite He, andb_false_r.
    + rewrite (bool_decide_false (q = p)) by done. simpl.
      destruct (decide (q ∈ ps)) as [Hin|Hnin].
      * rewrite (bool_decide_true (q ∈ ps)) by done.
        by rewrite (bool_decide_true (q ∈ p :: ps)) by by apply list_elem_of_further.
      * rewrite (bool_decide_false (q ∈ ps)) by done.
        rewrite (bool_decide_false (q ∈ p :: ps)); [done|].
        by intros [?|?]%elem_of_cons.
Qed.

(** C9.  One pass of the cleanup job, on a regular file that the pass
    finds in the downloads directory: after the pass the file is gone
    if and only if its age, the time of the pass minus its [mtimeMs],
    is more than 24 hours; a file whose age is 24 hours or less is
    there as before. *)
Theorem cleanup_removes_iff_old __dirname w names file content mtime :
  fs_readdir (downloadsDir __dirname) w = (Returned (inr names), w) →
  file ∈ names →
  files w !! Path.join [downloadsDir __dirname; file]
    = Some (Node (Regular content) mtime) →
  ∃ w', cleanup __dirname w = (Returned tt, w')
        ∧ (files w' !! Path.join [downloadsDir __dirname; file] = None
           ↔ 24 * 60 * 60 * 1000 < clock w - mtime)
        ∧ (clock w - mtime ≤ 24 * 60 * 60 * 1000 →
           files w' !! Path.join [downloadsDir __dirname; file]
           = Some (Node (Regular content) mtime)).
Proof.
  intros Hdir Hin Hf. unfold cleanup, mbind, M_bind. rewrite Hdir.
  destruct (forEach_cleanup_file __dirname names w) as (w' & -> & _ & _ & Hfiles).
  exists w'. split; [done|].
  rewrite Hfiles, Hf, bool_decide_true
    by (apply list_elem_of_fmap; by eexists).
  unfold expired. simpl.
  destruct (Z.ltb_spec (24 * 60 * 60 * 1000) (clock w - mtime)); split;
    try done; try lia.
  split; [done|lia].
Qed.

Lemma cleanup_removes_iff_old_witness :
  (fs_readdir (downloadsDir Sample.dir) (set_clock 86400005 Sample.world0)
     = (Returned (inr ["old.mp4"; "clip.mp4"]), set_clock 86400005 Sample.world0)
   ∧ "old.mp4" ∈ ["old.mp4"; "clip.mp4"]
   ∧ files (set_clock 86400005 Sample.world0)
       !! Path.join [downloadsDir Sample.dir; "old.mp4"]
     = Some (Node (Regular [x01; x02]) 5))
  ∧ ∃ w', cleanup Sample.dir (set_clock 86400005 Sample.world0) = (Returned tt, w')
          ∧ (files w' !! Path.join [downloadsDir Sample.dir; "old.mp4"] = None
             ↔ 24 * 60 * 60 * 1000 < clock (set_clock 86400005 Sample.world0) - 5)
          ∧ (clock (set_clock 86400005 Sample.world0) - 5 ≤ 24 * 60 * 60 * 1000 →
             files w' !! Path.join [downloadsDir Sample.dir; "old.mp4"]
             = Some (Node (Regular [x01; x02]) 5)).
Proof.
  assert (fs_readdir (downloadsDir Sample.dir) (set_clock 86400005 Sample.world0)
          = (Returned (inr ["old.mp4"; "clip.mp4"]), set_clock 86400005 Sample.world0))
    as Hdir by (vm_compute; reflexivity).
  assert ("old.mp4" ∈ ["old.mp4"; "clip.mp4"]) as Hin by apply list_elem_of_here.
  assert (files (set_clock 86400005 Sample.world0)
            !! Path.join [downloadsDir Sample.dir; "old.mp4"]
          = Some (Node (Regular [x01; x02]) 5)) as Hf by (vm_compute; reflexivity).
  split; [by repeat split|].
  exact (cleanup_removes_iff_old Sample.dir (set_clock 86400005 Sample.world0)
           ["old.mp4"; "clip.mp4"] "old.mp4" [x01; x02] 5 Hdir Hin Hf).
Defined.

(** *** Jobs fired over time *)

Lemma fs_readdir_cases path w :
  (∃ err, fs_readdir path w = (Returned (inl err), w))
  ∨ (∃ names, fs_readdir path w = (Returned (inr names), w)).
Proof.
  unfold fs_readdir.
  destruct (files w !! path) as [[[content|dsize] mtime]|]; simpl; eauto.
Qed.

(** The cleanup job always returns; it keeps the clock and the pending
    jobs and can only remove files. *)
Lemma cleanup_effect __dirname w :
  ∃ w', cleanup __dirname w = (Returned tt, w')
        ∧ clock w' = clock w ∧ jobs w' = jobs w ∧ files w' ⊆ files w.
Proof.
  unfold cleanup, mbind, M_bind.
  destruct (fs_readdir_cases (downloadsDir __dirname) w) as [[err ->]|[names ->]].
  - by eexists.
  - destruct (forEach_cleanup_file __dirname names w) as (w' & -> & Hc & Hj & Hf).
    exists w'. split; [done|]. split; [done|]. split; [done|].
    apply map_subseteq_spec. intros q n. rewrite Hf.
    destruct (files w !! q) as [n'|]; [|done].
    by destruct (_ && _).
Qed.

Lemma fire_effect __dirname invocation w :
  ∃ w', fire __dirname invocation w = (Returned tt, w')
        ∧ clock w' = Z.max (clock w) invocation.1
        ∧ jobs w' = jobs w ∧ files w' ⊆ files w.
Proof.
  destruct invocation as [date [videoFilePath|]];
    unfold fire, advance_clock, modify, mbind, M_bind; simpl.
  - destruct (delete_video_effect videoFilePath
                (set_clock (Z.max (clock w) date) w))
      as (w' & -> & Hc & Hj & Hf).
    exists w'. split; [done|]. split; [done|]. split; [done|].
    destruct Hf as [->| ->]; [done|apply delete_subseteq].
  - destruct (cleanup_effect __dirname (set_clock (Z.max (clock w) date) w))
      as (w' & -> & Hc & Hj & Hf).
    by exists w'.
Qed.

(** Once its one-shot deletion has fired, a path that named a regular
    file or nothing names nothing. *)
Lemma fire_delete_removes __dirname date videoFilePath w :
  (∀ dsize mtime, files w !! videoFilePath ≠ Some (Node (Directory dsize) mtime)) →
  ∃ w', fire __dirname (date, DeleteFile videoFilePath) w = (Returned tt, w')
        ∧ files w' !! videoFilePath = None.
Proof.
  intros Hkind. unfold fire, advance_clock, modify, mbind, M_bind. simpl.
  set (w1 := set_clock _ w).
  destruct (files w !! videoFilePath) as [[[content|dsize] mtime]|] eqn:H;
    [|by destruct (Hkind dsize mtime)|].
  - rewrite (delete_video_regular videoFilePath w1 content mtime) by done.
    eexists. split; [done|]. simpl. apply lookup_delete_eq.
  - rewrite (delete_video_missing videoFilePath w1) by done.
    by eexists.
Qed.

Lemma forEach_fire __dirname invocations w :
  ∃ w', forEach invocations (fire __dirname) w = (Returned tt, w')
        ∧ jobs w' = jobs w ∧ files w' ⊆ files w
        ∧ ∀ date videoFilePath,
            (date, DeleteFile videoFilePath) ∈ invocations →
            (∀ dsize mtime,
               files w !! videoFilePath ≠ Some (Node (Directory dsize) mtime)) →
            files w' !! videoFilePath = None.
Proof.
  revert w. induction invocations as [|inv invocations IH]; intros w.
  - exists w. split; [done|]. split; [done|]. split; [done|].
    intros date p Hin. by apply elem_of_nil in Hin.
  - simpl forEach. unfold mbind, M_bind.
    destruct (fire_effect __dirname inv w) as (w1 & Hfire & _ & Hj1 & Hf1).
    rewrite Hfire.
    destruct (IH w1) as (w' & -> & Hj' & Hf' & Hdel).
    exists w'. split; [done|]. split; [congruence|]. split; [by etrans|].
    intros date p [<-|Hin]%elem_of_cons Hkind.
    + destruct (fire_delete_removes __dirname date p w Hkind) as (w1' & Hfire' & Hp).
      rewrite Hfire in Hfire'. injection Hfire' as <-.
      by eapply lookup_weaken_None.
    + apply (Hdel date p Hin). intros dsize mtime Hp.
      apply (Hkind dsize mtime). by eapply lookup_weaken.
Qed.

Lemma timeline_one_shot utcOffset t w date videoFilePath :
  (date, videoFilePath) ∈ jobs w → date ≤ t →
  (date, DeleteFile videoFilePath) ∈ timeline utcOffset t w.
Proof.
  intros Hin Hdue. unfold timeline.
  rewrite merge_sort_Permutation. apply elem_of_app. left.
  apply (list_elem_of_fmap_2' _ _ (date, videoFilePath)); [|done].
  apply list_elem_of_In, filter_In. split; [by apply list_elem_of_In|].
  unfold due. simpl. by apply Z.leb_le.
Qed.

(** C6.  A file registered at time [T] (the route schedules its
    one-shot deletion when the clock shows [T]) is absent at every
    time [t >= T + 24h + 1h]: letting node-schedule fire what falls due
    until [t], one-shot deletions and hourly cleanups alike, always
    returns, and the path then names nothing.  No request is involved. *)
Theorem registered_file_expires __dirname utcOffset videoFilePath w content mtime t :
  files w !! videoFilePath = Some (Node (Regular content) mtime) →
  clock w + 24 * 60 * 60 * 1000 + HOUR ≤ t →
  ∃ w', (schedule_deletion videoFilePath ;; run_until __dirname utcOffset t) w
        = (Returned tt, w')
        ∧ files w' !! videoFilePath = None.
Proof.
  intros Hf Ht. unfold HOUR in Ht.
  unfold schedule_deletion, scheduleJob, Date_now, run_until, get_world, modify,
    advance_clock, mbind, M_bind.
  destruct (Z.leb_spec (clock w) (clock w + 24 * 60 * 60 * 1000)); [|lia].
  set (w0 := set_jobs _ w).
  set (w1 := set_jobs _ w0).
  destruct (forEach_fire __dirname (timeline utcOffset t w0) w1)
    as (w' & -> & _ & _ & Hdel).
  eexists. split; [done|]. simpl.
  apply (Hdel (clock w + 24 * 60 * 60 * 1000)).
  - apply timeline_one_shot; [|lia].
    simpl. apply elem_of_app. right. apply list_elem_of_here.
  - intros dsize mtime'. simpl. by rewrite Hf.
Qed.

Lemma registered_file_expires_witness :
  (files Sample.world0 !! Sample.clip_path = Some (Node (Regular Sample.clip) 1000)
   ∧ clock Sample.world0 + 24 * 60 * 60 * 1000 + HOUR ≤ 90002000)
  ∧ ∃ w', (schedule_deletion Sample.clip_path ;; run_until Sample.dir 0 90002000)
            Sample.world0 = (Returned tt, w')
          ∧ files w' !! Sample.clip_path = None.
Proof.
  assert (files Sample.world0 !! Sample.clip_path
          = Some (Node (Regular Sample.clip) 1000)) as Hf by (vm_compute; reflexivity).
  assert (clock Sample.world0 + 24 * 60 * 60 * 1000 + HOUR ≤ 90002000) as Ht
    by (vm_compute; discriminate).
  split; [by split|].
  exact (registered_file_expires Sample.dir 0 Sample.clip_path Sample.world0
           Sample.clip 1000 90002000 Hf Ht).
Defined.

(** *** The cleanup job as a backstop *)

(** The hourly cleanups alone remove the file, whatever node-schedule
    still holds for it: this is what is left of the guarantee when the
    one-shot deletion has been lost, for instance with a restart of the
    process. *)

Lemma next_tick_spec utcOffset t :
  t < next_tick utcOffset t ≤ t + HOUR
  ∧ (next_tick utcOffset t + utcOffset) mod HOUR = 0.
Proof.
  unfold next_tick, HOUR. change (60 * 60 * 1000) with 3600000.
  Z.div_mod_to_equations. lia.
Qed.

Lemma elem_of_ticks utcOffset from to x :
  from < x ≤ to → (x + utcOffset) mod HOUR = 0 → x ∈ ticks utcOffset from to.
Proof.
  intros Hx Hmod. unfold ticks.
  destruct (next_tick_spec utcOffset from) as [Hfirst Hphase].
  set (first := next_tick utcOffset from) in *.
  assert (∃ k, 0 ≤ k ∧ x = first + HOUR * k) as (k & Hk & ->).
  { exists ((x - first) / HOUR). revert Hmod Hphase Hfirst.
    unfold HOUR. change (60 * 60 * 1000) with 3600000.
    Z.div_mod_to_equations. lia. }
  destruct (Z.ltb_spec to first) as [Hlt|_]; [unfold HOUR in *; lia|].
  apply list_elem_of_fmap. exists (Z.to_nat k).
  split; [by rewrite Z2Nat.id|].
  apply elem_of_seq. split; [lia|].
  assert (k ≤ (to - first) / HOUR); [|lia].
  apply Z.div_le_lower_bound; unfold HOUR in *; lia.
Qed.

Lemma timeline_cleanup utcOffset t w x :
  clock w < x ≤ t → (x + utcOffset) mod HOUR = 0 →
  (x, Cleanup) ∈ timeline utcOffset t w.
Proof.
  intros Hx Hmod. unfold timeline.
  rewrite merge_sort_Permutation. apply elem_of_app. right.
  apply (list_elem_of_fmap_2' _ _ x); [|done]. by apply elem_of_ticks.
Qed.

Lemma fs_readdir_lists path w dsize dmtime name n :
  files w !! path = Some (Node (Directory dsize) dmtime) →
  files w !! (path +:+ "/" +:+ name) = Some n →
  entry_name path (path +:+ "/" +:+ name) = Some name →
  ∃ names, fs_readdir path w = (Returned (inr names), w) ∧ name ∈ names.
Proof.
  intros Hdir Hn Hname. unfold fs_readdir. rewrite Hdir. simpl.
  eexists. split; [done|].
  apply list_elem_of_omap. exists (path +:+ "/" +:+ name). split; [|done].
  apply (list_elem_of_fmap_2' _ _ (path +:+ "/" +:+ name, n)); [|done].
  by apply elem_of_map_to_list.
Qed.

(** A job that fires changes a path in one way only: a regular file
    may be gone afterwards. *)
Lemma fire_lookup __dirname invocation w q :
  ∃ w', fire __dirname invocation w = (Returned tt, w')
        ∧ (files w' !! q = files w !! q
           ∨ (files w' !! q = None
              ∧ ∃ content mtime, files w !! q = Some (Node (Regular content) mtime))).
Proof.
  destruct invocation as [date [videoFilePath|]];
    unfold fire, advance_clock, modify, mbind, M_bind; simpl.
  - set (w1 := set_clock _ w).
    destruct (files w !! videoFilePath) as [[[content|dsize] mtime]|] eqn:H.
    + rewrite (delete_video_regular videoFilePath w1 content mtime) by done.
      eexists. split; [done|]. simpl.
      destruct (decide (q = videoFilePath)) as [->|Hne].
      * right. rewrite lookup_delete_eq. eauto.
      * left. by rewrite lookup_delete_ne.
    + rewrite (delete_video_directory videoFilePath w1 dsize mtime) by done.
      eexists. split; [done|]. by left.
    + rewrite (delete_video_missing videoFilePath w1) by done.
      eexists. split; [done|]. by left.
  - set (w1 := set_clock _ w). unfold cleanup, mbind, M_bind.
    destruct (fs_readdir_cases (downloadsDir __dirname) w1) as [[err ->]|[names ->]].
    + eexists. split; [done|]. by left.
    + destruct (forEach_cleanup_file __dirname names w1) as (w' & -> & _ & _ & Hf).
      exists w'. split; [done|]. rewrite Hf. simpl.
      destruct (files w !! q) as [[[content|dsize] mtime]|]; [| |by left].
      * destruct (_ && _); [right; eauto|by left].
      * unfold expired. simpl. rewrite andb_false_r. by left.
Qed.

Lemma cleanup_removes_old_entry __dirname w file content mtime dsize dmtime :
  files w !! downloadsDir __dirname = Some (Node (Directory dsize) dmtime) →
  Path.join [downloadsDir __dirname; file] = downloadsDir __dirname +:+ "/" +:+ file →
  entry_name (downloadsDir __dirname) (downloadsDir __dirname +:+ "/" +:+ file)
    = Some file →
  files w !! Path.join [downloadsDir __dirname; file]
    = Some (Node (Regular content) mtime) →
  24 * 60 * 60 * 1000 < clock w - mtime →
  ∃ w', cleanup __dirname w = (Returned tt, w')
        ∧ files w' !! Path.join [downloadsDir __dirname; file] = None.
Proof.
  intros Hdir Hjoin Hname Hf Hold.
  destruct (fs_readdir_lists _ w dsize dmtime file _ Hdir
              ltac:(by rewrite <- Hjoin) Hname) as (names & Hls & Hin).
  unfold cleanup, mbind, M_bind. rewrite Hls.
  destruct (forEach_cleanup_file __dirname names w) as (w' & -> & _ & _ & Hfiles).
  exists w'. split; [done|].
  rewrite Hfiles, Hf, bool_decide_true by (apply list_elem_of_fmap; by eexists).
  unfold expired. simpl.
  by destruct (Z.ltb_spec (24 * 60 * 60 * 1000) (clock w - mtime)); [|lia].
Qed.

Lemma forEach_fire_cleanup __dirname invocations w file content mtime dsize dmtime x :
  files w !! downloadsDir __dirname = Some (Node (Directory dsize) dmtime) →
  Path.join [downloadsDir __dirname; file] = downloadsDir __dirname +:+ "/" +:+ file →
  entry_name (downloadsDir __dirname) (downloadsDir __dirname +:+ "/" +:+ file)
    = Some file →
  files w !! Path.join [downloadsDir __dirname; file] = None
  ∨ files w !! Path.join [downloadsDir __dirname; file]
    = Some (Node (Regular content) mtime) →
  (x, Cleanup) ∈ invocations →
  mtime + 24 * 60 * 60 * 1000 < x →
  ∃ w', forEach invocations (fire __dirname) w = (Returned tt, w')
        ∧ files w' !! Path.join [downloadsDir __dirname; file] = None.
Proof.
  intros Hdir Hjoin Hname Hf Hin Hx. revert w Hdir Hf Hin.
  set (p := Path.join [downloadsDir __dirname; file]) in *.
  induction invocations as [|inv invocations IH]; intros w Hdir Hf Hin;
    [by apply elem_of_nil in Hin|].
  simpl forEach. unfold mbind, M_bind.
  destruct (fire_lookup __dirname inv w (downloadsDir __dirname))
    as (w1 & Hfire & Hdir1).
  destruct (fire_lookup __dirname inv w p) as (w1' & Hfire' & Hp1).
  rewrite Hfire in Hfire'. injection Hfire' as <-. rewrite Hfire.
  assert (files w1 !! downloadsDir __dirname = Some (Node (Directory dsize) dmtime))
    as Hdir1'.
  { destruct Hdir1 as [->|[_ (c & m & Hreg)]]; [done|]. congruence. }
  apply elem_of_cons in Hin as [<-|Hin].
  - assert (files w1 !! p = None) as Hgone.
    { destruct Hf as [Hf|Hf].
      - destruct Hp1 as [->|[-> _]]; done.
      - revert Hfire. unfold fire, advance_clock, modify, mbind, M_bind. simpl.
        set (w0 := set_clock _ w). intros Hfire.
        destruct (cleanup_removes_old_entry __dirname w0 file content mtime
                    dsize dmtime) as (w1' & Hrun & Hnone); try done.
        { simpl. lia. }
        rewrite Hfire in Hrun. by injection Hrun as <-. }
    destruct (forEach_fire __dirname invocations w1) as (w' & -> & _ & Hsub & _).
    exists w'. split; [done|]. by eapply lookup_weaken_None.
  - apply IH; [done| |done].
    destruct Hp1 as [->|[-> _]]; [done|by left].
Qed.

Lemma cleanup_backstop __dirname utcOffset w file content mtime dsize dmtime t :
  files w !! downloadsDir __dirname = Some (Node (Directory dsize) dmtime) →
  Path.join [downloadsDir __dirname; file] = downloadsDir __dirname +:+ "/" +:+ file →
  entry_name (downloadsDir __dirname) (downloadsDir __dirname +:+ "/" +:+ file)
    = Some file →
  files w !! Path.join [downloadsDir __dirname; file]
    = Some (Node (Regular content) mtime) →
  mtime ≤ clock w →
  clock w + 24 * 60 * 60 * 1000 + HOUR ≤ t →
  ∃ w', run_until __dirname utcOffset t w = (Returned tt, w')
        ∧ files w' !! Path.join [downloadsDir __dirname; file] = None.
Proof.
  intros Hdir Hjoin Hname Hf Hm Ht.
  destruct (next_tick_spec utcOffset (clock w + 24 * 60 * 60 * 1000))
    as [Htick Hphase].
  set (x := next_tick utcOffset (clock w + 24 * 60 * 60 * 1000)) in *.
  unfold run_until, get_world, modify, advance_clock, mbind, M_bind.
  set (w1 := set_jobs _ w).
  destruct (forEach_fire_cleanup __dirname (timeline utcOffset t w) w1 file
              content mtime dsize dmtime x) as (w' & -> & Hnone); try done.
  - by right.
  - apply timeline_cleanup; [lia|done].
  - lia.
  - by eexists.
Qed.


End Retention.

(** * Further properties of the routes and jobs *)

(** ** The range streaming responder, beyond well-formed ranges *)

Section WatchMore.
Import JS JSFacts.

Lemma pipe_state rs w : (pipe rs w).2 = w.
Proof.
  unfold pipe. by destruct (files w !! rs_path rs) as [[[content|dsize] mtime]|].
Qed.


(** The bytes of a stream on [[a, b]], when the file may end before [b]. *)
Lemma stream_bytes_clipped path a b (content : list byte) :
  0 ≤ a → a ≤ b →
  let bs := stream_bytes {| rs_path := path; rs_start := a; rs_end := Some b |} content in
  Z.of_nat (length bs) = Z.max 0 (Z.min (b + 1) (Z.of_nat (length content)) - a)
  ∧ ∀ i, a ≤ i ≤ b → i < Z.of_nat (length content) →
         bs !! Z.to_nat (i - a) = content !! Z.to_nat i.
Proof.
  intros Ha Hab. unfold stream_bytes. simpl. split.
  - rewrite length_take, length_drop. lia.
  - intros i Hi Hsize. rewrite lookup_take_lt, lookup_drop by lia.
    f_equal. lia.
Qed.

(** X2.  The range is not checked against the size of the file: for
    every header [bytes=a-b] with [0 <= a <= b] (safe integers) the
    handler answers 206 and announces [Content-Length: b-a+1], while
    the body holds the bytes of the file from [a] to [b] as far as the
    file goes, [max 0 (min (b+1) S - a)] of them; beyond the end of the
    file the announced length is more than what is sent. *)
Theorem watch_range_unchecked __dirname filename w content mtime a b :
  files w !! Path.join [downloadsDir __dirname; filename]
    = Some (Node (Regular content) mtime) →
  0 ≤ a → a ≤ b → b ≤ MAX_SAFE_INTEGER →
  ∃ bs,
    watch __dirname filename
      (Some ("bytes=" +:+ decimal a +:+ "-" +:+ decimal b)) w
    = (Returned
         {| status := 206;
            headers :=
              [ ("Content-Range",
                 HString ("bytes " +:+ decimal a +:+ "-" +:+ decimal b +:+ "/"
                          +:+ decimal (Z.of_nat (length content))));
                ("Accept-Ranges", HString "bytes");
                ("Content-Length", HNumber (Int (b - a + 1)));
                ("Content-Type", HString "video/mp4") ];
            body := Bytes bs |}, w)
    ∧ Z.of_nat (length bs) = Z.max 0 (Z.min (b + 1) (Z.of_nat (length content)) - a)
    ∧ ∀ i, a ≤ i ≤ b → i < Z.of_nat (length content) →
           bs !! Z.to_nat (i - a) = content !! Z.to_nat i.
Proof.
  intros Hf Ha Hab Hb.
  assert (occurs "-" (decimal a) = false) as Hna
    by (apply all_digits_no_minus, decimal_digits; lia).
  assert (occurs "-" (decimal b) = false) as Hnb
    by (apply all_digits_no_minus, decimal_digits; lia).
  unfold watch. set (p := Path.join _) in *. clearbody p.
  rewrite truthy_bytes, replace_first_prefix.
  rewrite split_app by done. rewrite split_without by done.
  simpl.
  rewrite decimal_nonempty, !parseInt_decimal by lia.
  unfold mbind, M_bind.
  rewrite (existsSync_Some _ _ _ Hf). simpl.
  rewrite (statSync_Some _ _ _ Hf). simpl.
  rewrite createReadStream_range by lia.
  erewrite pipe_regular by done.
  rewrite !to_string_nonneg by lia.
  eexists. split; [reflexivity|]. by apply stream_bytes_clipped.
Qed.

Lemma watch_range_unchecked_witness :
  (files Sample.world0 !! Path.join [downloadsDir Sample.dir; "clip.mp4"]
     = Some (Node (Regular Sample.clip) 1000)
   ∧ 0 ≤ 900 ∧ 900 ≤ 5000 ∧ 5000 ≤ MAX_SAFE_INTEGER)
  ∧ ∃ bs,
      watch Sample.dir "clip.mp4" (Some "bytes=900-5000") Sample.world0
      = (Returned
           {| status := 206;
              headers :=
                [ ("Content-Range", HString "bytes 900-5000/1000");
                  ("Accept-Ranges", HString "bytes");
                  ("Content-Length", HNumber (Int 4101));
                  ("Content-Type", HString "video/mp4") ];
              body := Bytes bs |}, Sample.world0)
      ∧ Z.of_nat (length bs)
        = Z.max 0 (Z.min (5000 + 1) (Z.of_nat (length Sample.clip)) - 900)
      ∧ ∀ i, 900 ≤ i ≤ 5000 → i < Z.of_nat (length Sample.clip) →
             bs !! Z.to_nat (i - 900) = Sample.clip !! Z.to_nat i.
Proof.
  assert (files Sample.world0 !! Path.join [downloadsDir Sample.dir; "clip.mp4"]
          = Some (Node (Regular Sample.clip) 1000)) as Hf by (vm_compute; reflexivity).
  assert (5000 ≤ MAX_SAFE_INTEGER) as Hb by (vm_compute; discriminate).
  split; [split; [exact Hf|split; [lia|split; [lia|exact Hb]]]|].
  exact (watch_range_unchecked Sample.dir "clip.mp4" Sample.world0 Sample.clip
           1000 900 5000 Hf ltac:(lia) ltac:(lia) Hb).
Defined.

Lemma createReadStream_NaN path end_ w :
  createReadStream path (Some (NaN, end_)) w
  = (Threw (ERR_OUT_OF_RANGE "start" NaN), w).
Proof. reflexivity. Qed.

Lemma createReadStream_inverted path s e w :
  0 ≤ e → e < s → s ≤ MAX_SAFE_INTEGER →
  createReadStream path (Some (Int s, Int e)) w
  = (Threw (ERR_OUT_OF_RANGE "start" (Int s)), w).
Proof.
  intros He Hes Hs.
  unfold createReadStream, validateInteger, lift_outcome, mbind, M_bind, gt.
  destruct (Z.ltb_spec s 0); [lia|].
  destruct (Z.ltb_spec MAX_SAFE_INTEGER s); [lia|].
  destruct (Z.ltb_spec e 0); [lia|].
  destruct (Z.ltb_spec MAX_SAFE_INTEGER e); [lia|].
  destruct (Z.ltb_spec e s); [|lia]. done.
Qed.





(** X5.  The whole file is served exactly when the range header is
    absent or empty: for an existing file the route always answers, and
    the status is 200 if and only if there is no range header or its
    value is the empty string; every other header gives 206 or 500. *)
Theorem watch_full_iff_no_range __dirname filename range w content mtime :
  files w !! Path.join [downloadsDir __dirname; filename]
    = Some (Node (Regular content) mtime) →
  ∃ r,
    express_handle (watch __dirname filename range) w = (Returned r, w)
    ∧ (status r = 200 ↔ range = None ∨ range = Some "").
Proof.
  intros Hf. unfold express_handle, watch.
  set (p := Path.join _) in *. clearbody p.
  unfold mbind, M_bind.
  rewrite (existsSync_Some _ _ _ Hf). simpl.
  rewrite (statSync_Some _ _ _ Hf). simpl.
  assert (∀ o, rs_path o = p →
               pipe o w = (Returned (Bytes (stream_bytes o content)), w)) as Hpipe
    by (intros o <-; by eapply pipe_regular).
  destruct range as [[|c range]|]; simpl.
  - unfold createReadStream, mret, M_ret. rewrite Hpipe by done.
    eexists. split; [reflexivity|]. simpl. split; auto.
  - match goal with
    | |- context [createReadStream ?q ?o ?w0] =>
        destruct (createReadStream_cases q o w0)
          as [(rs & Hrs & Hpath)|(name & received & Hrs)]; rewrite Hrs
    end.
    + rewrite (Hpipe rs Hpath). eexists. split; [reflexivity|]. simpl.
      split; [done|]. by intros [?|?].
    + eexists. split; [reflexivity|]. simpl.
      split; [done|]. by intros [?|?].
  - unfold createReadStream, mret, M_ret. rewrite Hpipe by done.
    eexists. split; [reflexivity|]. simpl. split; auto.
Qed.

Lemma watch_full_iff_no_range_witness :
  files Sample.world0 !! Path.join [downloadsDir Sample.dir; "clip.mp4"]
    = Some (Node (Regular Sample.clip) 1000)
  ∧ ∃ r,
      express_handle (watch Sample.dir "clip.mp4" (Some "")) Sample.world0
      = (Returned r, Sample.world0)
      ∧ (status r = 200 ↔ Some "" = None ∨ Some "" = Some "").
Proof.
  assert (files Sample.world0 !! Path.join [downloadsDir Sample.dir; "clip.mp4"]
          = Some (Node (Regular Sample.clip) 1000)) as Hf by (vm_compute; reflexivity).
  split; [exact Hf|].
  exact (watch_full_iff_no_range Sample.dir "clip.mp4" (Some "") Sample.world0
           Sample.clip 1000 Hf).
Defined.

End WatchMore.

(** ** The cleanup job and the timers, beyond single files *)

Section RetentionMore.
Import JS JSFacts Path.

Lemma fs_readdir_names path w names :
  fs_readdir path w = (Returned (inr names), w) →
  names = omap (entry_name path) (map fst (map_to_list (files w))).
Proof.
  unfold fs_readdir.
  destruct (files w !! path) as [[[content|dsize] mtime]|]; simpl; congruence.
Qed.

(** X6.  What one pass of the cleanup job can do, wherever it runs: it
    returns, keeps the clock and the pending jobs, and creates or
    changes nothing; whatever it removes was a regular file, more than
    24 hours old at the time of the pass, at the path derived from the
    name of an entry of the downloads directory.  So directories,
    files of 24 hours or less and every other path are left alone. *)
Theorem cleanup_frame __dirname w :
  ∃ w', cleanup __dirname w = (Returned tt, w')
        ∧ clock w' = clock w ∧ jobs w' = jobs w
        ∧ (∀ q n, files w' !! q = Some n → files w !! q = Some n)
        ∧ (∀ q n, files w !! q = Some n → files w' !! q = None →
             (∃ content, nkind n = Regular content)
             ∧ 24 * 60 * 60 * 1000 < clock w - mtimeMs n
             ∧ ∃ key file,
                 is_Some (files w !! key)
                 ∧ entry_name (downloadsDir __dirname) key = Some file
                 ∧ q = Path.join [downloadsDir __dirname; file]).
Proof.
  unfold cleanup, mbind, M_bind.
  destruct (fs_readdir_cases (downloadsDir __dirname) w) as [[err Hls]|[names Hls]];
    rewrite Hls.
  - eexists. split; [done|]. split; [done|]. split; [done|]. simpl.
    split; [done|]. intros q n Hq Hnone. congruence.
  - apply fs_readdir_names in Hls.
    destruct (forEach_cleanup_file __dirname names w) as (w' & -> & Hc & Hj & Hf).
    exists w'. split; [done|]. split; [done|]. split; [done|]. split.
    + intros q n. rewrite Hf. destruct (files w !! q) as [n'|]; [|done].
      by destruct (_ && _).
    + intros q n Hq. rewrite Hf, Hq.
      destruct (bool_decide _) eqn:Hin; simpl; [|done].
      destruct (expired (clock w) n) eqn:Hexp; [|done]. intros _.
      unfold expired in Hexp. destruct n as [[content|dsize] mtime]; [|done].
      simpl in *. split; [by eexists|]. split; [by apply Z.ltb_lt|].
      apply bool_decide_eq_true in Hin.
      apply list_elem_of_fmap in Hin as (file & -> & Hfile).
      rewrite Hls in Hfile.
      apply list_elem_of_omap in Hfile as (key & Hkey & Hname).
      apply list_elem_of_fmap in Hkey as ([key' n'] & -> & Hkey).
      apply elem_of_map_to_list in Hkey. simpl in *.
      exists key', file. by rewrite Hkey.
Qed.

(** X7.  When the downloads directory cannot be read, because nothing
    is at its path or a regular file is, the cleanup job writes one
    error line, [Error reading downloads directory:], and does nothing
    else. *)
Theorem cleanup_unreadable __dirname w :
  (∀ dsize mtime,
     files w !! downloadsDir __dirname ≠ Some (Node (Directory dsize) mtime)) →
  ∃ code,
    cleanup __dirname w
    = (Returned tt,
       write_console (ErrorLine "Error reading downloads directory:" code) w)
    ∧ (code = ENOENT ↔ files w !! downloadsDir __dirname = None).
Proof.
  intros Hdir. unfold cleanup, mbind, M_bind, fs_readdir.
  destruct (files w !! downloadsDir __dirname) as [[[content|dsize] mtime]|];
    simpl; [|by destruct (Hdir dsize mtime)|].
  - exists ENOTDIR. split; [done|]. by split.
  - exists ENOENT. by split.
Qed.

Lemma cleanup_unreadable_witness :
  (∀ dsize mtime,
     files Sample.world0 !! downloadsDir "/nowhere"
       ≠ Some (Node (Directory dsize) mtime))
  ∧ ∃ code,
      cleanup "/nowhere" Sample.world0
      = (Returned tt,
         write_console (ErrorLine "Error reading downloads directory:" code)
           Sample.world0)
      ∧ (code = ENOENT ↔ files Sample.world0 !! downloadsDir "/nowhere" = None).
Proof.
  assert (∀ dsize mtime,
            files Sample.world0 !! downloadsDir "/nowhere"
              ≠ Some (Node (Directory dsize) mtime)) as Hdir.
  { intros dsize mtime.
    replace (files Sample.world0 !! downloadsDir "/nowhere") with (@None node)
      by (vm_compute; reflexivity).
    discriminate. }
  split; [exact Hdir|].
  exact (cleanup_unreadable "/nowhere" Sample.world0 Hdir).
Defined.

Lemma segments_absolute segs :
  segs ≠ [] → Forall (λ seg, plain seg = true) segs →
  Path.segments (absolute segs) = segs.
Proof.
  intros Hne Hplain. unfold Path.segments, absolute.
  change ("/" +:+ join_with_slash segs) with (String "/" (join_with_slash segs)).
  change (split "/" (String "/" (join_with_slash segs)))
    with ("" :: split "/" (join_with_slash segs)).
  rewrite split_join_with_slash by done.
  rewrite filter_cons_False by done.
  clear Hne. induction segs as [|seg segs IH]; [done|].
  apply Forall_cons_1 in Hplain as [(Ht & _)%plain_spec Hplain].
  rewrite filter_cons_True by done. by rewrite IH.
Qed.

(** X8.  A file name without a slash that is neither empty nor ["."]
    nor [".."] cannot leave the store: with the program installed in a
    directory in normal form, the path the [/watch] route derives from
    such a name is the downloads directory followed by the name, a
    location strictly inside the downloads directory. *)
Theorem watch_plain_name_inside segs filename :
  segs ≠ [] → Forall (λ seg, plain seg = true) segs → plain filename = true →
  Path.join [downloadsDir (absolute segs); filename]
  = downloadsDir (absolute segs) +:+ "/" +:+ filename
  ∧ Path.inside (downloadsDir (absolute segs))
      (Path.join [downloadsDir (absolute segs); filename]) = true.
Proof.
  intros Hne Hplain Hname.
  destruct (downloads_entry segs filename Hne Hplain Hname) as [Hjoin _].
  split; [done|]. rewrite Hjoin. unfold downloadsDir.
  destruct (join_plain segs "downloads" Hne Hplain eq_refl) as [_ ->].
  assert (Forall (λ seg, plain seg = true) (segs ++ ["downloads"])) as Hplain'
    by (apply Forall_app; split; [done|by apply Forall_singleton]).
  assert (segs ++ ["downloads"] ≠ []) as Hne' by by destruct segs.
  destruct (join_plain (segs ++ ["downloads"]) filename Hne' Hplain' Hname)
    as [<- ->].
  unfold inside.
  rewrite (segments_absolute (segs ++ ["downloads"])) by done.
  rewrite (segments_absolute ((segs ++ ["downloads"]) ++ [filename]));
    [|by destruct segs|apply Forall_app; split; [done|by apply Forall_singleton]].
  rewrite andb_true_iff, !bool_decide_eq_true. split.
  - by apply prefix_app_r.
  - rewrite !length_app. simpl. lia.
Qed.

Lemma watch_plain_name_inside_witness :
  (["srv"; "app"] ≠ [] ∧ Forall (λ seg, plain seg = true) ["srv"; "app"]
   ∧ plain "clip.mp4" = true)
  ∧ Path.join [downloadsDir "/srv/app"; "clip.mp4"]
    = downloadsDir "/srv/app" +:+ "/" +:+ "clip.mp4"
  ∧ Path.inside (downloadsDir "/srv/app")
      (Path.join [downloadsDir "/srv/app"; "clip.mp4"]) = true.
Proof.
  assert (["srv"; "app"] ≠ []) as Hne by discriminate.
  assert (Forall (λ seg, plain seg = true) ["srv"; "app"]) as Hplain
    by (repeat constructor).
  assert (plain "clip.mp4" = true) as Hname by reflexivity.
  split; [by repeat split|].
  exact (watch_plain_name_inside ["srv"; "app"] "clip.mp4" Hne Hplain Hname).
Defined.


Lemma ticks_bounds utcOffset from to x :
  x ∈ ticks utcOffset from to → from < x ≤ to.
Proof.
  unfold ticks. destruct (next_tick_spec utcOffset from) as [Hfirst _].
  set (first := next_tick utcOffset from) in *.
  destruct (Z.ltb_spec to first) as [Hlt|Hle]; [by intros ?%elem_of_nil|].
  intros (k & -> & Hk%elem_of_seq)%list_elem_of_fmap.
  assert (0 ≤ HOUR * Z.of_nat k)
    by (apply Z.mul_nonneg_nonneg; [by unfold HOUR|lia]).
  assert (HOUR * Z.of_nat k ≤ to - first); [|lia].
  etrans; [|apply (Z.mul_div_le (to - first) HOUR); by unfold HOUR].
  apply Z.mul_le_mono_nonneg_l; [by unfold HOUR|].
  assert (0 ≤ (to - first) / HOUR) by (apply Z.div_pos; [lia|by unfold HOUR]).
  lia.
Qed.

Lemma elem_of_timeline utcOffset t w invocation :
  invocation ∈ timeline utcOffset t w →
  (∃ date path,
     invocation = (date, DeleteFile path) ∧ (date, path) ∈ jobs w ∧ date ≤ t)
  ∨ (∃ tick, invocation = (tick, Cleanup) ∧ clock w < tick ≤ t).
Proof.
  unfold timeline. rewrite merge_sort_Permutation.
  intros [Hin|Hin]%elem_of_app.
  - left. apply list_elem_of_fmap in Hin as ([date path] & -> & Hin).
    apply list_elem_of_In, filter_In in Hin as [Hin Hdue].
    exists date, path. split; [done|]. split; [by apply list_elem_of_In|].
    unfold due in Hdue. simpl in *. by apply Z.leb_le.
  - right. apply list_elem_of_fmap in Hin as (tick & -> & Hin).
    exists tick. split; [done|]. by eapply ticks_bounds.
Qed.

(** A job that fires while a file is not older than 24 hours leaves the
    file alone, unless it is the one-shot deletion bound to its path. *)
Lemma fire_keeps_young __dirname invocation w path n :
  files w !! path = Some n →
  invocation.2 ≠ DeleteFile path →
  Z.max (clock w) invocation.1 - mtimeMs n ≤ 24 * 60 * 60 * 1000 →
  ∃ w', fire __dirname invocation w = (Returned tt, w')
        ∧ files w' !! path = Some n
        ∧ clock w' = Z.max (clock w) invocation.1.
Proof.
  intros Hf Hother Hage.
  destruct invocation as [date [videoFilePath|]];
    unfold fire, advance_clock, modify, mbind, M_bind; simpl in *.
  - destruct (delete_video_effect videoFilePath
                (set_clock (Z.max (clock w) date) w))
      as (w' & -> & Hc & _ & Hfiles).
    exists w'. split; [done|]. split; [|done].
    destruct Hfiles as [->| ->]; simpl; [done|].
    rewrite lookup_delete_ne; [done|congruence].
  - set (w1 := set_clock _ w). unfold cleanup, mbind, M_bind.
    destruct (fs_readdir_cases (downloadsDir __dirname) w1) as [[err ->]|[names ->]].
    + by eexists.
    + destruct (forEach_cleanup_file __dirname names w1) as (w' & -> & Hc & _ & Hfiles).
      exists w'. split; [done|]. split; [|done].
      rewrite Hfiles. simpl. rewrite Hf.
      assert (expired (Z.max (clock w) date) n = false) as ->; [|by rewrite andb_false_r].
      unfold expired. destruct (nkind n); [|done]. by apply Z.ltb_ge.
Qed.

Lemma forEach_fire_keeps_young __dirname invocations w path n t :
  (∀ invocation, invocation ∈ invocations →
     invocation.1 ≤ t ∧ invocation.2 ≠ DeleteFile path) →
  clock w ≤ t → t - mtimeMs n ≤ 24 * 60 * 60 * 1000 →
  files w !! path = Some n →
  ∃ w', forEach invocations (fire __dirname) w = (Returned tt, w')
        ∧ files w' !! path = Some n.
Proof.
  intros Hall Hclock Hage. revert w Hclock.
  induction invocations as [|inv invocations IH]; intros w Hclock Hf;
    [by eexists|].
  destruct (Hall inv) as [Hdate Hother]; [apply list_elem_of_here|].
  simpl forEach. unfold mbind, M_bind.
  destruct (fire_keeps_young __dirname inv w path n Hf Hother)
    as (w1 & -> & Hf1 & Hc1); [lia|].
  apply IH; [|lia|done].
  intros inv' Hin. apply Hall. by apply list_elem_of_further.
Qed.

(** X10.  Nothing is removed early: a file (or directory) that is at a
    path at time [T] is still there, unchanged, at every later time
    [t] up to 24 hours after its [mtimeMs], provided no one-shot
    deletion bound to that path falls due by [t]; neither the hourly
    cleanups nor the timers of other files touch it. *)
Theorem young_file_kept __dirname utcOffset w path n t :
  files w !! path = Some n →
  clock w ≤ t → t ≤ mtimeMs n + 24 * 60 * 60 * 1000 →
  (∀ date, (date, path) ∈ jobs w → t < date) →
  ∃ w', run_until __dirname utcOffset t w = (Returned tt, w')
        ∧ files w' !! path = Some n.
Proof.
  intros Hf Hclock Hage Hjobs.
  unfold run_until, get_world, modify, advance_clock, mbind, M_bind.
  set (w1 := set_jobs _ w).
  destruct (forEach_fire_keeps_young __dirname (timeline utcOffset t w) w1 path n t)
    as (w' & -> & Hf'); [|done|lia|done|by eexists].
  intros inv [(date & q & -> & Hin & Hdue)|(tick & -> & Htick)]%elem_of_timeline;
    simpl.
  - split; [done|]. intros [= ->]. specialize (Hjobs date Hin). lia.
  - split; [lia|done].
Qed.

Lemma young_file_kept_witness :
  (files Sample.world0 !! Sample.clip_path = Some (Node (Regular Sample.clip) 1000)
   ∧ clock Sample.world0 ≤ 86401000
   ∧ 86401000 ≤ mtimeMs (Node (Regular Sample.clip) 1000) + 24 * 60 * 60 * 1000
   ∧ ∀ date, (date, Sample.clip_path) ∈ jobs Sample.world0 → 86401000 < date)
  ∧ ∃ w', run_until Sample.dir 0 86401000 Sample.world0 = (Returned tt, w')
          ∧ files w' !! Sample.clip_path = Some (Node (Regular Sample.clip) 1000).
Proof.
  assert (files Sample.world0 !! Sample.clip_path
          = Some (Node (Regular Sample.clip) 1000)) as Hf by (vm_compute; reflexivity).
  assert (clock Sample.world0 ≤ 86401000) as Hc by (vm_compute; discriminate).
  assert (86401000 ≤ mtimeMs (Node (Regular Sample.clip) 1000) + 24 * 60 * 60 * 1000)
    as Hage by (vm_compute; discriminate).
  assert (∀ date, (date, Sample.clip_path) ∈ jobs Sample.world0 → 86401000 < date)
    as Hjobs by (intros date Hin; by apply elem_of_nil in Hin).
  split; [by repeat split|].
  exact (young_file_kept Sample.dir 0 Sample.world0 Sample.clip_path
           (Node (Regular Sample.clip) 1000) 86401000 Hf Hc Hage Hjobs).
Defined.

(** X11.  Timers are bound to paths, not to files, and are never
    cancelled: a one-shot deletion that is pending for a path removes
    whatever regular file is at that path when it falls due, whenever
    that file was written, and is then no longer pending.  A file
    downloaded again under the same name is thus removed when the
    timer of the first download fires. *)
Theorem pending_one_shot_fires __dirname utcOffset w date path t :
  (date, path) ∈ jobs w → date ≤ t →
  (∀ dsize mtime, files w !! path ≠ Some (Node (Directory dsize) mtime)) →
  ∃ w', run_until __dirname utcOffset t w = (Returned tt, w')
        ∧ files w' !! path = None
        ∧ jobs w' = List.filter (λ job, negb (due t job)) (jobs w).
Proof.
  intros Hin Hdue Hkind.
  unfold run_until, get_world, modify, advance_clock, mbind, M_bind.
  set (w1 := set_jobs _ w).
  destruct (forEach_fire __dirname (timeline utcOffset t w) w1)
    as (w' & -> & Hj & _ & Hdel).
  eexists. split; [done|]. simpl. split; [|by rewrite Hj].
  apply (Hdel date); [by apply timeline_one_shot|done].
Qed.

Lemma pending_one_shot_fires_witness :
  ((3600000, Sample.clip_path)
     ∈ jobs (set_jobs (λ _, [(3600000, Sample.clip_path)]) Sample.world0)
   ∧ 3600000 ≤ 3600000
   ∧ ∀ dsize mtime,
       files (set_jobs (λ _, [(3600000, Sample.clip_path)]) Sample.world0)
         !! Sample.clip_path ≠ Some (Node (Directory dsize) mtime))
  ∧ ∃ w', run_until Sample.dir 0 3600000
            (set_jobs (λ _, [(3600000, Sample.clip_path)]) Sample.world0)
          = (Returned tt, w')
          ∧ files w' !! Sample.clip_path = None
          ∧ jobs w'
            = List.filter (λ job, negb (due 3600000 job))
                (jobs (set_jobs (λ _, [(3600000, Sample.clip_path)]) Sample.world0)).
Proof.
  set (w := set_jobs (λ _, [(3600000, Sample.clip_path)]) Sample.world0).
  assert ((3600000, Sample.clip_path) ∈ jobs w) as Hin by apply list_elem_of_here.
  assert (∀ dsize mtime,
            files w !! Sample.clip_path ≠ Some (Node (Directory dsize) mtime))
    as Hkind.
  { intros dsize mtime.
    replace (files w !! Sample.clip_path)
      with (Some (Node (Regular Sample.clip) 1000)) by (vm_compute; reflexivity).
    discriminate. }
  split; [split; [exact Hin|split; [lia|exact Hkind]]|].
  exact (pending_one_shot_fires Sample.dir 0 w 3600000 Sample.clip_path 3600000
           Hin ltac:(lia) Hkind).
Defined.

End RetentionMore.

(** ** The name of a downloaded file and its URLs *)

Section TextFacts.
Import JS JSFacts Path Text.

Lemma occurs_app c s1 s2 : occurs c (s1 +:+ s2) = occurs c s1 || occurs c s2.
Proof.
  induction s1 as [|c' s1 IH]; [done|].
  rewrite app_cons. simpl. by rewrite IH, orb_assoc.
Qed.

Lemma remove_chars_clean class s c :
  occurs c class = true → occurs c (remove_chars class s) = false.
Proof.
  intros Hc. induction s as [|c' s IH]; [done|]. simpl.
  destruct (occurs c' class) eqn:Hc'; [done|]. simpl. rewrite IH.
  destruct (Ascii.eqb_spec c' c) as [->|]; [congruence|done].
Qed.

Lemma remove_chars_occurs class s c :
  occurs c (remove_chars class s) = true → occurs c s = true.
Proof.
  induction s as [|c' s IH]; [done|]. simpl.
  destruct (occurs c' class); simpl.
  - intros H. rewrite (IH H). apply orb_true_r.
  - intros [->| H]%orb_prop; [done|]. rewrite (IH H). apply orb_true_r.
Qed.

Lemma strip_prefix_inv prefix s rest :
  strip_prefix prefix s = Some rest → s = prefix +:+ rest.
Proof.
  revert s. induction prefix as [|c prefix IH]; intros s; simpl.
  - by intros [= <-].
  - destruct s as [|c' s]; [done|].
    destruct (Ascii.eqb_spec c c') as [->|]; [|done].
    intros H. by rewrite (IH _ H).
Qed.

Lemma strip_one_inv prefixes s rest :
  strip_one prefixes s = Some rest →
  ∃ prefix, prefix ∈ prefixes ∧ s = prefix +:+ rest.
Proof.
  induction prefixes as [|prefix prefixes IH]; simpl; [done|].
  destruct (strip_prefix prefix s) as [rest'|] eqn:H.
  - intros [= ->]. exists prefix. split; [apply list_elem_of_here|].
    by apply strip_prefix_inv.
  - intros (prefix' & Hin & Hs)%IH. exists prefix'.
    split; [by apply list_elem_of_further|done].
Qed.

(** Trimming only removes characters, at the two ends. *)
Lemma trimStart_go_suffix fuel s : ∃ before, s = before +:+ trimStart_go fuel s.
Proof.
  revert s. induction fuel as [|fuel IH]; intros s; cbn [trimStart_go];
    [by exists EmptyString|].
  destruct (strip_one white_space s) as [rest|] eqn:H; [|by exists EmptyString].
  apply strip_one_inv in H as (prefix & _ & ->).
  destruct (IH rest) as [before Hrest].
  exists (prefix +:+ before). by rewrite app_assoc, <- Hrest.
Qed.

Lemma trimEnd_prefix s : ∃ after, s = trimEnd s +:+ after.
Proof.
  induction s as [|c s [after IH]]; [by exists EmptyString|]. cbn [trimEnd].
  destruct (all_white (String c s)); [by eexists|].
  exists after. by rewrite app_cons, <- IH.
Qed.

Lemma trim_occurs c s : occurs c (trim s) = true → occurs c s = true.
Proof.
  unfold trim, trimStart. intros H.
  destruct (trimStart_go_suffix (String.length s) s) as [before Hs].
  destruct (trimEnd_prefix (trimStart_go (String.length s) s)) as [after Ht].
  rewrite Hs, Ht, !occurs_app, H. by rewrite orb_true_r.
Qed.

Lemma sanitizedTitle_clean videoTitle c :
  occurs c ("<>:" +:+ String "034" "/\|?*") = true →
  occurs c (Download.sanitizedTitle videoTitle) = false.
Proof.
  intros Hc. unfold Download.sanitizedTitle.
  destruct (occurs c (trim _)) eqn:H; [|done].
  apply trim_occurs in H. by rewrite remove_chars_clean in H.
Qed.

(** X12.  Whatever the title, the name that [downloadVideo] gives the
    file holds none of the nine characters that the source removes
    (angle brackets, colon, double quote, slash, backslash, bar,
    question mark, star); it is not empty, has no slash and is neither ["."] nor [".."]: a name that a
    directory can hold. *)
Theorem videoFilename_plain videoTitle :
  plain (Download.videoFilename videoTitle) = true
  ∧ ∀ c, occurs c ("<>:" +:+ String "034" "/\|?*") = true →
         occurs c (Download.videoFilename videoTitle) = false.
Proof.
  assert (∀ c, occurs c ("<>:" +:+ String "034" "/\|?*") = true →
               occurs c (Download.videoFilename videoTitle) = false) as Hclean.
  { intros c Hc. unfold Download.videoFilename.
    rewrite occurs_app, (sanitizedTitle_clean _ _ Hc). simpl.
    destruct c as [[] [] [] [] [] [] [] []]; try done; by vm_compute in Hc. }
  split; [|done]. unfold plain.
  rewrite (Hclean "/"%char) by (by vm_compute).
  unfold Download.videoFilename.
  destruct (Download.sanitizedTitle videoTitle) as [|c1 [|c2 [|c3 ?]]];
    simpl;
    repeat match goal with
           | |- context [Ascii.eqb ?a ?b] => destruct (Ascii.eqb a b)
           end; done.
Qed.

Lemma all_chars_app test s1 s2 :
  all_chars test (s1 +:+ s2) = all_chars test s1 && all_chars test s2.
Proof.
  induction s1 as [|c s1 IH]; [done|].
  rewrite app_cons. simpl. by rewrite IH, andb_assoc.
Qed.

Lemma escape_chars c :
  all_chars (λ c', unreserved c' || Ascii.eqb c' "%") (escape c) = true.
Proof. by destruct c as [[] [] [] [] [] [] [] []]. Qed.

Lemma escape_inj c1 c2 : escape c1 = escape c2 → c1 = c2.
Proof.
  unfold escape. intros [= Hhi Hlo].
  assert (∀ d1 d2, 0 ≤ d1 < 16 → 0 ≤ d2 < 16 →
                   hex_digit d1 = hex_digit d2 → d1 = d2) as Hinj.
  { intros d1 d2 H1 H2 Heq.
    assert (N_of_ascii (hex_digit d1) = N_of_ascii (hex_digit d2)) as Hn
      by by rewrite Heq.
    unfold hex_digit in Hn. rewrite !N_ascii_embedding in Hn.
    - destruct (d1 <? 10) eqn:E1, (d2 <? 10) eqn:E2; lia.
    - destruct (d2 <? 10) eqn:E2; lia.
    - destruct (d1 <? 10) eqn:E1; lia. }
  assert (0 ≤ code c1 < 256 ∧ 0 ≤ code c2 < 256) as [H1 H2].
  { unfold code. pose proof (N_ascii_bounded c1). pose proof (N_ascii_bounded c2). lia. }
  apply Hinj in Hhi, Hlo; try (Z.div_mod_to_equations; lia).
  assert (code c1 = code c2) as Hcode by (Z.div_mod_to_equations; lia).
  unfold code in Hcode. apply N2Z.inj in Hcode.
  by rewrite <- (ascii_N_embedding c1), <- (ascii_N_embedding c2), Hcode.
Qed.

(** X13.  [encodeURIComponent], which turns the name of the file into
    the last segment of the two URLs of the page, only produces
    unreserved characters and [%] (so no slash, question mark or
    space), and it is injective: two names never share a URL. *)
Theorem encodeURIComponent_safe_injective :
  (∀ s, all_chars (λ c, unreserved c || Ascii.eqb c "%") (encodeURIComponent s) = true)
  ∧ (∀ s1 s2, encodeURIComponent s1 = encodeURIComponent s2 → s1 = s2).
Proof.
  split.
  - induction s as [|c s IH]; [done|]. simpl encodeURIComponent.
    rewrite all_chars_app, IH, andb_true_r.
    destruct (unreserved c) eqn:Hc; [simpl; by rewrite Hc|apply escape_chars].
  - induction s1 as [|c1 s1 IH]; intros [|c2 s2]; simpl encodeURIComponent.
    + done.
    + by destruct (unreserved c2).
    + by destruct (unreserved c1).
    + destruct (unreserved c1) eqn:H1, (unreserved c2) eqn:H2;
        unfold escape; rewrite ?app_cons, ?app_nil.
      * intros [= -> Hs]. by rewrite (IH _ Hs).
      * intros [= -> _]. done.
      * intros [= <- _]. done.
      * intros [= Hhi Hlo Hs]. rewrite (IH _ Hs). f_equal.
        apply escape_inj. unfold escape. by rewrite Hhi, Hlo.
Qed.

End TextFacts.

(** ** The download route *)

Section DownloadFacts.
Import JS JSFacts Path Text Download.

Lemma parent_go_plain name : occurs "/" name = false → parent_go name = None.
Proof.
  induction name as [|c name IH]; [done|]. simpl.
  intros [Hc Hname]%orb_false_elim. by rewrite (IH Hname), Hc.
Qed.

Lemma parent_go_entry dir name :
  occurs "/" name = false → parent_go (dir +:+ "/" +:+ name) = Some dir.
Proof.
  intros Hname. induction dir as [|c dir IH].
  - rewrite app_nil. change ("/" +:+ name) with (String "/" name).
    simpl. by rewrite (parent_go_plain _ Hname).
  - rewrite app_cons. simpl. by rewrite IH.
Qed.

Lemma parent_entry dir name :
  truthy dir = true → occurs "/" name = false →
  parent (dir +:+ "/" +:+ name) = dir.
Proof.
  intros Hdir Hname. unfold parent. rewrite (parent_go_entry _ _ Hname).
  by destruct dir.
Qed.

Lemma basename_absolute segs name :
  Forall (λ seg, plain seg = true) segs → plain name = true →
  basename (absolute (segs ++ [name])) = name.
Proof.
  intros Hplain Hname.
  change (basename (absolute (segs ++ [name])))
    with (List.last (segments (absolute (segs ++ [name]))) "").
  rewrite segments_absolute.
  - apply last_last.
  - by destruct segs.
  - apply Forall_app. split; [done|by apply Forall_singleton].
Qed.

Lemma downloads_entry_absolute segs name :
  segs ≠ [] → Forall (λ seg, plain seg = true) segs → plain name = true →
  downloadsDir (absolute segs) +:+ "/" +:+ name
  = absolute ((segs ++ ["downloads"]) ++ [name])
  ∧ truthy (downloadsDir (absolute segs)) = true.
Proof.
  intros Hne Hplain Hname. unfold downloadsDir.
  destruct (join_plain segs "downloads" Hne Hplain eq_refl) as [-> _].
  split; [|done].
  assert (absolute segs +:+ "/" +:+ "downloads" = absolute (segs ++ ["downloads"]))
    as -> by (unfold absolute; by rewrite join_with_slash_snoc, !app_assoc).
  unfold absolute.
  rewrite (join_with_slash_snoc (segs ++ ["downloads"]) name) by by destruct segs.
  by rewrite !app_assoc.
Qed.

Lemma videoFilePath_facts segs name :
  segs ≠ [] → Forall (λ seg, plain seg = true) segs → plain name = true →
  Path.join [downloadsDir (absolute segs); name]
  = downloadsDir (absolute segs) +:+ "/" +:+ name
  ∧ basename (downloadsDir (absolute segs) +:+ "/" +:+ name) = name
  ∧ parent (downloadsDir (absolute segs) +:+ "/" +:+ name)
    = downloadsDir (absolute segs).
Proof.
  intros Hne Hplain Hname.
  destruct (downloads_entry segs name Hne Hplain Hname) as [Hjoin _].
  destruct (downloads_entry_absolute segs name Hne Hplain Hname) as [Habs Hdir].
  destruct (plain_spec name Hname) as (_ & Hslash & _).
  split; [done|]. split.
  - rewrite Habs. apply basename_absolute; [|done].
    apply Forall_app. split; [done|by apply Forall_singleton].
  - by apply parent_entry.
Qed.

(** X14.  With the program installed in a directory in normal form,
    the path [downloadVideo] writes to is the downloads directory
    followed by the file name, it lies inside the downloads directory,
    and [path.basename] gives the file name back: the caption and the
    two URLs of the page name the file that was written. *)
Theorem videoFilePath_in_downloads segs videoTitle :
  segs ≠ [] → Forall (λ seg, plain seg = true) segs →
  Path.join [downloadsDir (absolute segs); videoFilename videoTitle]
  = downloadsDir (absolute segs) +:+ "/" +:+ videoFilename videoTitle
  ∧ Path.inside (downloadsDir (absolute segs))
      (Path.join [downloadsDir (absolute segs); videoFilename videoTitle]) = true
  ∧ basename (Path.join [downloadsDir (absolute segs); videoFilename videoTitle])
    = videoFilename videoTitle.
Proof.
  intros Hne Hplain.
  assert (plain (videoFilename videoTitle) = true) as Hname.
  { unfold plain, videoFilename.
    assert (occurs "/" (sanitizedTitle videoTitle) = false) as Hs
      by (apply sanitizedTitle_clean; by vm_compute).
    rewrite occurs_app, Hs.
    destruct (sanitizedTitle videoTitle) as [|c1 [|c2 [|c3 ?]]];
      simpl;
      repeat match goal with
             | |- context [Ascii.eqb ?a ?b] => destruct (Ascii.eqb a b)
             end; done. }
  destruct (videoFilePath_facts segs _ Hne Hplain Hname) as (Hjoin & Hbase & _).
  destruct (downloads_entry_absolute segs _ Hne Hplain Hname) as [Habs _].
  rewrite Hjoin. split; [done|]. split; [|done].
  rewrite Habs. unfold downloadsDir.
  destruct (join_plain segs "downloads" Hne Hplain eq_refl) as [_ ->].
  unfold inside.
  rewrite (segments_absolute (segs ++ ["downloads"]));
    [|by destruct segs|apply Forall_app; split; [done|by apply Forall_singleton]].
  rewrite (segments_absolute ((segs ++ ["downloads"]) ++ [videoFilename videoTitle]));
    [|by destruct segs|].
  - rewrite andb_true_iff, !bool_decide_eq_true. split.
    + by apply prefix_app_r.
    + rewrite !length_app. simpl. lia.
  - repeat (apply Forall_app; split; [|by apply Forall_singleton]). done.
Qed.

Lemma videoFilePath_in_downloads_witness :
  (["srv"; "app"] ≠ [] ∧ Forall (λ seg, plain seg = true) ["srv"; "app"])
  ∧ Path.join [downloadsDir "/srv/app"; videoFilename " Holiday: day 1/2 "]
    = "/srv/app/downloads/Holiday day 12.mp4"
  ∧ basename (Path.join [downloadsDir "/srv/app"; videoFilename " Holiday: day 1/2 "])
    = "Holiday day 12.mp4".
Proof.
  assert (["srv"; "app"] ≠ []) as Hne by discriminate.
  assert (Forall (λ seg, plain seg = true) ["srv"; "app"]) as Hplain
    by (repeat constructor).
  split; [done|].
  destruct (videoFilePath_in_downloads ["srv"; "app"] " Holiday: day 1/2 " Hne Hplain)
    as (Hjoin & _ & Hbase).
  split; [exact Hjoin|exact Hbase].
Defined.

Lemma watch_whole_file __dirname filename w content mtime :
  files w !! Path.join [downloadsDir __dirname; filename]
    = Some (Node (Regular content) mtime) →
  watch __dirname filename None w
  = (Returned
       {| status := 200;
          headers :=
            [ ("Content-Length", HNumber (Int (Z.of_nat (length content))));
              ("Content-Type", HString "video/mp4") ];
          body := Bytes content |}, w).
Proof.
  intros Hf. unfold watch. set (p := Path.join _) in *. clearbody p.
  unfold mbind, M_bind.
  rewrite (existsSync_Some _ _ _ Hf). simpl.
  rewrite (statSync_Some _ _ _ Hf). simpl.
  unfold createReadStream, mret, M_ret.
  erewrite pipe_regular by done.
  by rewrite stream_bytes_whole.
Qed.

(** The two ways [downloadVideo] ends: with [null], one error line and
    nothing else changed; or with the path, after both requests were
    answered and the file was written. *)
Lemma downloadVideo_outcome __dirname net url s :
  (∃ text cause,
     downloadVideo __dirname net url s
     = (Done None,
        {| process := process s;
           reports := reports s ++ [Report text cause];
           channel := channel s |}))
  ∨ (∃ data link received,
       axios_get net
         ("https://teraboxvideodownloader.nepcoderdevs.workers.dev/?url="
          +:+ encodeURIComponent url) = inr data
       ∧ hdDownloadLink data = Some link ∧ truthy link = true
       ∧ axios_get_stream net link = inr received
       ∧ downloadVideo __dirname net url s
         = (Done (Some (Path.join [downloadsDir __dirname;
                                   videoFilename (videoTitle data)])),
            {| process :=
                 write_console
                   (LogLine ("Video '" +:+ videoTitle data
                             +:+ "' downloaded successfully as '"
                             +:+ videoFilename (videoTitle data) +:+ "'."))
                   (set_files
                      (<[Path.join [downloadsDir __dirname;
                                    videoFilename (videoTitle data)]
                         := Node (Regular received) (clock (process s))]>)
                      (process s));
               reports := reports s;
               channel := channel s |})).
Proof.
  unfold downloadVideo, try_catch, mbind, D_bind, await.
  destruct (axios_get net _) as [e|data] eqn:Hget; [left; by eexists _, _|].
  destruct (hdDownloadLink data) as [link|] eqn:Hlink; [|left; by eexists _, _].
  destruct (truthy link) eqn:Htruthy; [|left; by eexists _, _].
  destruct (axios_get_stream net link) as [e|received] eqn:Hstream;
    [left; by eexists _, _|].
  set (p := Path.join _).
  assert (write_stream p received s
          = (Done tt,
             set_process
               (set_files (<[p := Node (Regular received) (clock (process s))]>)) s)
          ∨ ∃ e, write_stream p received s = (Failed e, s)) as [Hw|[e Hw]].
  { unfold write_stream.
    destruct (files (process s) !! p) as [[[] ?]|]; [by left|by right; eexists|].
    destruct (files (process s) !! parent p) as [[[] ?]|];
      [by right; eexists|by left|by right; eexists]. }
  - right. exists data, link, received. rewrite Hw. by repeat split.
  - left. rewrite Hw. by eexists _, _.
Qed.

(** X15.  [downloadVideo] never throws, posts nothing and schedules
    nothing.  When it returns [null], the file system, the clock and
    the timers are as before and exactly one error line was written.
    When it returns a path, that path holds a regular file written at
    the current time, no other path changed, and no error line was
    written. *)
Theorem downloadVideo_all_or_nothing __dirname net url s :
  ∃ result s',
    downloadVideo __dirname net url s = (Done result, s')
    ∧ channel s' = channel s
    ∧ jobs (process s') = jobs (process s)
    ∧ clock (process s') = clock (process s)
    ∧ match result with
      | None =>
          process s' = process s
          ∧ ∃ text cause, reports s' = reports s ++ [Report text cause]
      | Some path =>
          reports s' = reports s
          ∧ ∃ received,
              files (process s')
              = <[path := Node (Regular received) (clock (process s))]>
                  (files (process s))
      end.
Proof.
  destruct (downloadVideo_outcome __dirname net url s)
    as [(text & cause & ->)|(data & link & received & _ & _ & _ & _ & ->)].
  - eexists None, _. repeat split. by eexists _, _.
  - eexists (Some _), _. repeat split. by eexists.
Qed.

Lemma normalize_truthy path : truthy (normalize path) = true.
Proof.
  unfold normalize. destruct (String.eqb path ""); [done|].
  destruct (String.eqb (join_with_slash _) "") eqn:Hempty.
  - by destruct (starts_with_slash path), (ends_with_slash path).
  - destruct (join_with_slash _) as [|c rest]; [done|].
    by destruct (starts_with_slash path), (ends_with_slash path).
Qed.

Lemma join_truthy args : truthy (Path.join args) = true.
Proof.
  unfold Path.join. destruct (filter _ args); [done|apply normalize_truthy].
Qed.

(** The route, once [downloadVideo] has written the file: the timer is
    set, and the answer of the channel decides the page. *)
Lemma download_after_write __dirname net protocol host url data link received s
    size mtime :
  truthy url = true →
  axios_get net
    ("https://teraboxvideodownloader.nepcoderdevs.workers.dev/?url="
     +:+ encodeURIComponent url) = inr data →
  hdDownloadLink data = Some link → truthy link = true →
  axios_get_stream net link = inr received →
  files (process s)
    !! parent (Path.join [downloadsDir __dirname; videoFilename (videoTitle data)])
  = Some (Node (Directory size) mtime) →
  (∀ size' mtime',
     files (process s)
       !! Path.join [downloadsDir __dirname; videoFilename (videoTitle data)]
     ≠ Some (Node (Directory size') mtime')) →
  let path := Path.join [downloadsDir __dirname; videoFilename (videoTitle data)] in
  let w' :=
    set_jobs (λ js, (js ++ [(clock (process s) + 24 * 60 * 60 * 1000, path)])%list)
      (write_console
         (LogLine ("Video '" +:+ videoTitle data
                   +:+ "' downloaded successfully as '"
                   +:+ videoFilename (videoTitle data) +:+ "'."))
         (set_files (<[path := Node (Regular received) (clock (process s))]>)
            (process s))) in
  download __dirname net protocol host (Some url) s
  = match sendVideo net path ("Video: " +:+ basename path) with
    | None =>
        (Done
           {| downloadUrl :=
                Some ((protocol +:+ "://" +:+ default "undefined" host)
                      +:+ "/downloads/" +:+ encodeURIComponent (basename path));
              watchUrl :=
                Some ((protocol +:+ "://" +:+ default "undefined" host)
                      +:+ "/watch/" +:+ encodeURIComponent (basename path));
              error := None |},
         {| process := w'; reports := reports s;
            channel := channel s ++ [Post received ("Video: " +:+ basename path)] |})
    | Some e =>
        (Done
           {| downloadUrl := None; watchUrl := None;
              error := Some "Failed to download video. Please try again later." |},
         {| process := w';
            reports := reports s ++ [Report "Error in download route:" (Some e)];
            channel := channel s |})
    end.
Proof.
  intros Hurl Hget Hlink Htruthy Hstream Hdir Hfile path w'.
  assert (downloadVideo __dirname net url s
          = (Done (Some path),
             {| process :=
                  write_console
                    (LogLine ("Video '" +:+ videoTitle data
                              +:+ "' downloaded successfully as '"
                              +:+ videoFilename (videoTitle data) +:+ "'."))
                    (set_files
                       (<[path := Node (Regular received) (clock (process s))]>)
                       (process s));
                reports := reports s;
                channel := channel s |})) as Hdown.
  { unfold downloadVideo, try_catch, mbind, D_bind, await.
    rewrite Hget, Hlink, Htruthy, Hstream.
    fold path. unfold write_stream. fold path in Hdir, Hfile. rewrite Hdir.
    destruct (files (process s) !! path) as [[[] ?]|] eqn:Hp; try done.
    by destruct (Hfile _ _ eq_refl). }
  unfold download. rewrite Hurl. cbn [negb].
  unfold try_catch, mbind, D_bind. rewrite Hdown.
  rewrite (join_truthy _ : truthy path = true).
  unfold in_process, schedule_deletion, Date_now, scheduleJob, mbind, M_bind.
  cbn [process write_console set_files clock].
  assert ((clock (process s) <=? clock (process s) + 24 * 60 * 60 * 1000) = true)
    as -> by (apply Z.leb_le; lia).
  unfold telegram_sendVideo. cbn [process set_process set_jobs write_console set_files files].
  rewrite lookup_insert_eq.
  by destruct (sendVideo net path _).
Qed.



(** X17.  When the upload to the channel fails after the file was
    written, the route renders the page of the error "Please try again
    later" without any URL and writes one error line; the file and its
    timer remain as after a success, and nothing is posted. *)
Theorem download_upload_fails segs net protocol host url data link received s
    size mtime cause :
  segs ≠ [] → Forall (λ seg, plain seg = true) segs →
  truthy url = true →
  axios_get net
    ("https://teraboxvideodownloader.nepcoderdevs.workers.dev/?url="
     +:+ encodeURIComponent url) = inr data →
  hdDownloadLink data = Some link → truthy link = true →
  axios_get_stream net link = inr received →
  files (process s) !! downloadsDir (absolute segs)
  = Some (Node (Directory size) mtime) →
  (∀ size' mtime',
     files (process s)
       !! (downloadsDir (absolute segs) +:+ "/" +:+ videoFilename (videoTitle data))
     ≠ Some (Node (Directory size') mtime')) →
  sendVideo net
    (downloadsDir (absolute segs) +:+ "/" +:+ videoFilename (videoTitle data))
    ("Video: " +:+ videoFilename (videoTitle data)) = Some cause →
  ∃ s',
    download (absolute segs) net protocol host (Some url) s
    = (Done
         {| downloadUrl := None; watchUrl := None;
            error := Some "Failed to download video. Please try again later." |},
       s')
    ∧ files (process s')
      = <[downloadsDir (absolute segs) +:+ "/" +:+ videoFilename (videoTitle data)
          := Node (Regular received) (clock (process s))]> (files (process s))
    ∧ jobs (process s')
      = jobs (process s)
        ++ [(clock (process s) + 86400000,
             downloadsDir (absolute segs) +:+ "/" +:+ videoFilename (videoTitle data))]
    ∧ channel s' = channel s
    ∧ reports s' = reports s ++ [Report "Error in download route:" (Some cause)].
Proof.
  intros Hne Hplain Hurl Hget Hlink Htruthy Hstream Hdir Hfile Hsend.
  destruct (videoFilename_plain (videoTitle data)) as [Hname _].
  destruct (videoFilePath_facts segs _ Hne Hplain Hname) as (Hjoin & Hbase & Hparent).
  pose proof (download_after_write (absolute segs) net protocol host url data link
                received s size mtime Hurl Hget Hlink Htruthy Hstream) as Hroute.
  cbv zeta in Hroute. rewrite Hjoin, Hparent, Hbase in Hroute.
  specialize (Hroute Hdir Hfile). rewrite Hsend in Hroute.
  eexists. split; [exact Hroute|]. by cbn [process channel reports].
Qed.

Lemma download_upload_fails_witness :
  ∃ s',
    download "/srv/app" SampleNet.offline "https" (Some "tera.example")
      (Some "https://terabox.example/s/1") SampleNet.site0
    = (Done
         {| downloadUrl := None; watchUrl := None;
            error := Some "Failed to download video. Please try again later." |},
       s')
    ∧ files (process s') !! "/srv/app/downloads/Holiday day 12.mp4"
      = Some (Node (Regular [x0a; x0b; x0c]) 2000)
    ∧ channel s' = []
    ∧ reports s'
      = [Report "Error in download route:" (Some (Rejected "ETELEGRAM"))].
Proof.
  assert (["srv"; "app"] ≠ []) as Hne by discriminate.
  assert (Forall (λ seg, plain seg = true) ["srv"; "app"]) as Hplain
    by (repeat constructor).
  assert (∀ size' mtime',
            files Sample.world0 !! "/srv/app/downloads/Holiday day 12.mp4"
            ≠ Some (Node (Directory size') mtime')) as Hfile
    by (intros ??; vm_compute; discriminate).
  destruct (download_upload_fails ["srv"; "app"] SampleNet.offline "https"
              (Some "tera.example") "https://terabox.example/s/1"
              _ SampleNet.link [x0a; x0b; x0c] SampleNet.site0 4096 0
              (Rejected "ETELEGRAM")
              Hne Hplain eq_refl eq_refl eq_refl eq_refl eq_refl eq_refl
              Hfile eq_refl)
    as (s' & Hroute & Hfiles & _ & Hchannel & Hreports).
  exists s'. split; [exact Hroute|]. split; [|by split].
  rewrite Hfiles. apply lookup_insert_eq.
Defined.

(** X18.  The download route always renders a page, whatever the
    services answer: it never fails.  The page has the two URLs exactly
    when it has no error.  Every path whose file the request created or
    replaced has a timer 24 hours ahead, also when the upload failed.
    A request without [teraUrl], or with an empty one, gets the error
    "Terabox URL is required." and changes nothing. *)
Theorem download_always_renders __dirname net protocol host teraUrl s :
  ∃ pg s',
    download __dirname net protocol host teraUrl s = (Done pg, s')
    ∧ (is_Some (downloadUrl pg) ↔ error pg = None)
    ∧ (is_Some (watchUrl pg) ↔ error pg = None)
    ∧ (∀ path,
         files (process s') !! path ≠ files (process s) !! path →
         (clock (process s) + 86400000, path) ∈ jobs (process s'))
    ∧ (teraUrl = None ∨ teraUrl = Some EmptyString →
       s' = s ∧ error pg = Some "Terabox URL is required.").
Proof.
  assert (∀ text : string, is_Some (@None string) ↔ Some text = None) as Hnone
    by (intros text; split; [by intros [? ?]|done]).
  assert (∀ text : string, is_Some (Some text) ↔ @None string = None) as Hsome
    by (intros text; split; [done|by eexists]).
  destruct teraUrl as [url|]; [destruct (truthy url) eqn:Hurl|].
  - assert (Some url = None ∨ Some url = Some EmptyString → False) as Hgiven
      by (intros [|[= ->]]; done).
    unfold download. rewrite Hurl. cbn [negb].
    unfold try_catch, mbind, D_bind.
    destruct (downloadVideo_outcome __dirname net url s)
      as [(text & cause & ->)|(data & link & received & _ & _ & _ & _ & ->)].
    + eexists _, _. split; [reflexivity|]. cbn [process]. split_and!.
      * apply Hnone.
      * apply Hnone.
      * done.
      * by intros ?%Hgiven.
    + rewrite join_truthy.
      unfold in_process, schedule_deletion, Date_now, scheduleJob, mbind, M_bind.
      cbn [process write_console set_files clock].
      assert ((clock (process s) <=? clock (process s) + 24 * 60 * 60 * 1000) = true)
        as -> by (apply Z.leb_le; lia).
      unfold telegram_sendVideo.
      cbn [process set_process set_jobs write_console set_files files].
      rewrite lookup_insert_eq.
      set (path := Path.join _).
      assert (∀ path' js,
                <[path := Node (Regular received) (clock (process s))]>
                  (files (process s)) !! path' ≠ files (process s) !! path' →
                (clock (process s) + 86400000, path')
                ∈ js ++ [(clock (process s) + 24 * 60 * 60 * 1000, path)]) as Htimer.
      { intros path' js Hchanged. destruct (decide (path' = path)) as [->|Hother].
        - apply elem_of_app. right. apply list_elem_of_here.
        - by rewrite lookup_insert_ne in Hchanged. }
      destruct (sendVideo net path _).
      * eexists _, _. split; [reflexivity|].
        cbn [process files jobs set_jobs write_console set_files]. split_and!.
        -- apply Hnone.
        -- apply Hnone.
        -- intros path' Hchanged. by apply Htimer.
        -- by intros ?%Hgiven.
      * eexists _, _. split; [reflexivity|].
        cbn [process files jobs set_jobs write_console set_files]. split_and!.
        -- apply Hsome.
        -- apply Hsome.
        -- intros path' Hchanged. by apply Htimer.
        -- by intros ?%Hgiven.
  - destruct url; [|done]. eexists _, _. split; [reflexivity|]. split_and!.
    + apply Hnone.
    + apply Hnone.
    + done.
    + done.
  - eexists _, _. split; [reflexivity|]. split_and!.
    + apply Hnone.
    + apply Hnone.
    + done.
    + done.
Qed.

Lemma watch_absent __dirname filename range w :
  files w !! Path.join [downloadsDir __dirname; filename] = None →
  watch __dirname filename range w = (Returned (send 404 "Video not found"), w).
Proof.
  intros Hf. unfold watch. set (p := Path.join _) in *. clearbody p.
  unfold mbind, M_bind. by rewrite (existsSync_None _ _ Hf).
Qed.



(** X20.  Only the "HD Video" link is ever used.  When the resolver's
    answer has no such link, or an empty one, nothing is requested or
    written, whatever the "Fast Download" link is: the route writes the
    error line "No Fast Download link available." and renders the page
    of the error "Please ensure the Terabox URL is correct." *)
Theorem download_without_hd_link __dirname net protocol host url data s :
  truthy url = true →
  axios_get net
    ("https://teraboxvideodownloader.nepcoderdevs.workers.dev/?url="
     +:+ encodeURIComponent url) = inr data →
  hdDownloadLink data = None ∨ hdDownloadLink data = Some EmptyString →
  download __dirname net protocol host (Some url) s
  = (Done
       {| downloadUrl := None; watchUrl := None;
          error :=
            Some "Failed to download video. Please ensure the Terabox URL is correct." |},
     {| process := process s;
        reports := reports s ++ [Report "No Fast Download link available." None];
        channel := channel s |}).
Proof.
  intros Hurl Hget Hlink. unfold download. rewrite Hurl. cbn [negb].
  unfold try_catch, mbind, D_bind, downloadVideo, try_catch, mbind, D_bind, await.
  rewrite Hget. by destruct Hlink as [-> | ->].
Qed.

Lemma download_without_hd_link_witness :
  download "/srv/app"
    {| axios_get := λ _,
         inr {| videoTitle := "Holiday";
                fastDownloadLink := Some "https://cdn.example/fast/1";
                hdDownloadLink := None |};
       axios_get_stream := λ _, inr [x0a];
       sendVideo := λ _ _, None |}
    "https" (Some "tera.example") (Some "https://terabox.example/s/1")
    SampleNet.site0
  = (Done
       {| downloadUrl := None; watchUrl := None;
          error :=
            Some "Failed to download video. Please ensure the Terabox URL is correct." |},
     {| process := Sample.world0;
        reports := [Report "No Fast Download link available." None];
        channel := [] |}).
Proof.
  exact (download_without_hd_link "/srv/app"
           {| axios_get := λ _,
                inr {| videoTitle := "Holiday";
                       fastDownloadLink := Some "https://cdn.example/fast/1";
                       hdDownloadLink := None |};
              axios_get_stream := λ _, inr [x0a];
              sendVideo := λ _ _, None |}
           "https" (Some "tera.example")
           "https://terabox.example/s/1"
           {| videoTitle := "Holiday";
              fastDownloadLink := Some "https://cdn.example/fast/1";
              hdDownloadLink := None |}
           SampleNet.site0 eq_refl eq_refl (or_introl eq_refl)).
Defined.

(** X21.  When the resolver or the video link rejects the request,
    [downloadVideo] catches the error: the route writes the line "Error
    downloading video:" with the error's message, renders the page of
    the error "Please ensure the Terabox URL is correct.", and leaves
    the files, the timers and the channel as they were. *)
Theorem download_request_rejected __dirname net protocol host url cause s :
  truthy url = true →
  axios_get net
    ("https://teraboxvideodownloader.nepcoderdevs.workers.dev/?url="
     +:+ encodeURIComponent url) = inl cause
  ∨ (∃ data link,
       axios_get net
         ("https://teraboxvideodownloader.nepcoderdevs.workers.dev/?url="
          +:+ encodeURIComponent url) = inr data
       ∧ hdDownloadLink data = Some link ∧ truthy link = true
       ∧ axios_get_stream net link = inl cause) →
  download __dirname net protocol host (Some url) s
  = (Done
       {| downloadUrl := None; watchUrl := None;
          error :=
            Some "Failed to download video. Please ensure the Terabox URL is correct." |},
     {| process := process s;
        reports := reports s ++ [Report "Error downloading video:" (Some cause)];
        channel := channel s |}).
Proof.
  intros Hurl Hfail. unfold download. rewrite Hurl. cbn [negb].
  unfold try_catch, mbind, D_bind, downloadVideo, try_catch, mbind, D_bind, await.
  destruct Hfail as [-> |(data & link & -> & Hlink & Htruthy & Hstream)]; [done|].
  by rewrite Hlink, Htruthy, Hstream.
Qed.

Lemma download_request_rejected_witness :
  download "/srv/app"
    {| axios_get := λ _, inl (Rejected "Request failed with status code 404");
       axios_get_stream := λ _, inr [x0a];
       sendVideo := λ _ _, None |}
    "https" (Some "tera.example") (Some "https://terabox.example/s/1")
    SampleNet.site0
  = (Done
       {| downloadUrl := None; watchUrl := None;
          error :=
            Some "Failed to download video. Please ensure the Terabox URL is correct." |},
     {| process := Sample.world0;
        reports :=
          [Report "Error downloading video:"
             (Some (Rejected "Request failed with status code 404"))];
        channel := [] |}).
Proof.
  exact (download_request_rejected "/srv/app"
           {| axios_get := λ _, inl (Rejected "Request failed with status code 404");
              axios_get_stream := λ _, inr [x0a];
              sendVideo := λ _ _, None |}
           "https" (Some "tera.example")
           "https://terabox.example/s/1"
           (Rejected "Request failed with status code 404")
           SampleNet.site0 eq_refl (or_introl eq_refl)).
Defined.

(** X22.  When the downloads directory is not there (it is created
    only when the program starts), the video is requested, but the
    file cannot be opened: [downloadVideo] catches [ENOENT], nothing is
    written, scheduled or posted, and the route renders the page of the
    error "Please ensure the Terabox URL is correct." *)
Theorem download_without_directory segs net protocol host url data link received s :
  segs ≠ [] → Forall (λ seg, plain seg = true) segs →
  truthy url = true →
  axios_get net
    ("https://teraboxvideodownloader.nepcoderdevs.workers.dev/?url="
     +:+ encodeURIComponent url) = inr data →
  hdDownloadLink data = Some link → truthy link = true →
  axios_get_stream net link = inr received →
  files (process s) !! downloadsDir (absolute segs) = None →
  files (process s)
    !! (downloadsDir (absolute segs) +:+ "/" +:+ videoFilename (videoTitle data))
  = None →
  download (absolute segs) net protocol host (Some url) s
  = (Done
       {| downloadUrl := None; watchUrl := None;
          error :=
            Some "Failed to download video. Please ensure the Terabox URL is correct." |},
     {| process := process s;
        reports :=
          reports s
          ++ [Report "Error downloading video:"
                (Some (Raised (SystemError ENOENT "open")))];
        channel := channel s |}).
Proof.
  intros Hne Hplain Hurl Hget Hlink Htruthy Hstream Hdir Hfile.
  destruct (videoFilename_plain (videoTitle data)) as [Hname _].
  destruct (videoFilePath_facts segs _ Hne Hplain Hname) as (Hjoin & _ & Hparent).
  unfold download. rewrite Hurl. cbn [negb].
  unfold try_catch, mbind, D_bind, downloadVideo, try_catch, mbind, D_bind, await.
  rewrite Hget, Hlink, Htruthy, Hstream, Hjoin.
  unfold write_stream. by rewrite Hfile, Hparent, Hdir.
Qed.

Lemma download_without_directory_witness :
  download "/nowhere" SampleNet.net "https" (Some "tera.example")
    (Some "https://terabox.example/s/1") SampleNet.site0
  = (Done
       {| downloadUrl := None; watchUrl := None;
          error :=
            Some "Failed to download video. Please ensure the Terabox URL is correct." |},
     {| process := Sample.world0;
        reports :=
          [Report "Error downloading video:"
             (Some (Raised (SystemError ENOENT "open")))];
        channel := [] |}).
Proof.
  assert (["nowhere"] ≠ []) as Hne by discriminate.
  assert (Forall (λ seg, plain seg = true) ["nowhere"]) as Hplain
    by (repeat constructor).
  exact (download_without_directory ["nowhere"] SampleNet.net "https"
           (Some "tera.example") "https://terabox.example/s/1"
           _ SampleNet.link [x0a; x0b; x0c] SampleNet.site0
           Hne Hplain eq_refl eq_refl eq_refl eq_refl eq_refl eq_refl eq_refl).
Defined.

End DownloadFacts.
